(** * Verification of the college-baseball-scraper extraction engine.

    Python strings are modelled as Rocq [string]s over ASCII; the Python
    string primitives that the scraper uses ([str.lower], [str.strip],
    [str.split], the [in] operator on strings, [str.startswith]) are
    written out below on that alphabet.  They agree with Python's on the
    code points 0-127 only: Python's Unicode case mapping and character
    classes are not modelled (e.g. "\u212a".lower() is "k" in Python), so
    properties that depend on them are stated for ASCII text. *)

From Stdlib Require Import Bool List Arith Lia ZArith QArith String Ascii.
Import ListNotations.
Open Scope nat_scope.
Open Scope string_scope.

(** ** Python string primitives *)
Module Py.

(** [str.isspace] on ASCII: tab, LF, VT, FF, CR, the four information
    separators 0x1c-0x1f and space. This is also the [\s] class of [re]. *)
Definition is_space (c : ascii) : bool :=
  let n := nat_of_ascii c in
  ((Nat.leb 9 n) && (Nat.leb n 13)) || ((Nat.leb 28 n) && (Nat.leb n 32)).

Definition is_upper (c : ascii) : bool :=
  let n := nat_of_ascii c in (Nat.leb 65 n) && (Nat.leb n 90).

Definition is_lower (c : ascii) : bool :=
  let n := nat_of_ascii c in (Nat.leb 97 n) && (Nat.leb n 122).

Definition is_alpha (c : ascii) : bool := is_upper c || is_lower c.

Definition is_digit (c : ascii) : bool :=
  let n := nat_of_ascii c in (Nat.leb 48 n) && (Nat.leb n 57).

Definition lower_char (c : ascii) : ascii :=
  if is_upper c then ascii_of_nat (nat_of_ascii c + 32) else c.

(** [s.lower()] *)
Fixpoint lower (s : string) : string :=
  match s with
  | EmptyString => EmptyString
  | String c t => String (lower_char c) (lower t)
  end.

(** [s.lstrip()] *)
Fixpoint lstrip (s : string) : string :=
  match s with
  | EmptyString => EmptyString
  | String c t => if is_space c then lstrip t else s
  end.

Fixpoint rev_str (s : string) (acc : string) : string :=
  match s with
  | EmptyString => acc
  | String c t => rev_str t (String c acc)
  end.

Definition rstrip (s : string) : string :=
  rev_str (lstrip (rev_str s EmptyString)) EmptyString.

(** [s.strip()] *)
Definition strip (s : string) : string := rstrip (lstrip s).

(** [needle in hay] *)
Fixpoint contains (needle hay : string) : bool :=
  String.prefix needle hay ||
  match hay with
  | EmptyString => false
  | String _ t => contains needle t
  end.

(** [s.startswith(p)] *)
Definition startswith (s p : string) : bool := String.prefix p s.

(** [s.split()] with no separator: maximal runs of non-space characters. *)
Fixpoint split_aux (s : string) (cur : string) : list string :=
  match s with
  | EmptyString => if String.eqb cur "" then [] else [rev_str cur ""]
  | String c t =>
      if is_space c then
        (if String.eqb cur "" then [] else [rev_str cur ""]) ++ split_aux t ""
      else split_aux t (String c cur)
  end.

Definition split (s : string) : list string := split_aux s "".

(** [s.find(c)] for one character, [None] standing for [-1]. *)
Fixpoint find_char (c : ascii) (s : string) : option nat :=
  match s with
  | EmptyString => None
  | String d t =>
      if Ascii.eqb c d then Some 0
      else option_map S (find_char c t)
  end.

Definition has_char (c : ascii) (s : string) : bool :=
  match find_char c s with Some _ => true | None => false end.

(** [s.split(c, 1)] when [c in s]: the text before and after the first [c]. *)
Definition split_once (c : ascii) (s : string) : string * string :=
  match find_char c s with
  | Some i => (substring 0 i s, substring (S i) (length s) s)
  | None => (s, "")
  end.

(** [s.replace(c, "")] for one character. *)
Fixpoint remove_char (c : ascii) (s : string) : string :=
  match s with
  | EmptyString => EmptyString
  | String d t => if Ascii.eqb c d then remove_char c t else String d (remove_char c t)
  end.

End Py.

(** Python exceptions raised along the paths modelled below.  Every one of
    them is a [ValueError] in the source except [WebDriverError]. *)
Inductive exn :=
| InvalidIPv6URL                      (* urllib.parse: "Invalid IPv6 URL" *)
| InvalidIPvFuture                    (* urllib.parse: "IPvFuture address is invalid" *)
| IPv4InBrackets                      (* urllib.parse: "An IPv4 address cannot be in brackets" *)
| NotAnIPAddress                      (* ipaddress.ip_address: "does not appear to be an IPv4 or IPv6 address" *)
| SchoolNotConfigured                 (* find_player_url: school not in SCHOOLS *)
| RosterFetchFailed                   (* find_player_url: requests failure *)
| NoPlayersOnRoster                   (* find_player_url: no roster card selected *)
| PlayerNotFound (scanned : nat)      (* find_player_url: "Found N players on page" *)
| StatsTabMissing                     (* parse_sidearm_game_log: Stats tab *)
| NoGameLogData                       (* parse_sidearm_game_log: empty game log *)
| GameLogFailed (cause : exn)         (* parse_game_log: "Failed to parse game log" *)
| IntParseError                       (* int(s) *)
| FloatParseError                     (* float(s) *)
| WebDriverError.                     (* selenium: driver setup, get or quit *)

Inductive result (A : Type) :=
| Ok (a : A)
| Err (e : exn).
Arguments Ok {A} a.
Arguments Err {A} e.

(** ** urllib.parse.urlparse (Python 3.11.4 and later, ASCII text)

    Besides the split itself, [urlsplit] performs the unbalanced-bracket check
    and the validation of a bracketed host ([_check_bracketed_netloc],
    [_check_bracketed_host]), which calls [ipaddress.ip_address]; the parts of
    [ipaddress] that decide whether a string is an IPv4 or IPv6 address are
    written out below. *)
Module UrlParse.

Record parse_result := { scheme : string; netloc : string; path : string;
                         params : string; query : string; fragment : string }.

Definition scheme_char (c : ascii) : bool :=
  Py.is_alpha c || Py.is_digit c || Py.has_char c "+-.".

Fixpoint all_chars (p : ascii -> bool) (s : string) : bool :=
  match s with
  | EmptyString => true
  | String c t => p c && all_chars p t
  end.

(** [_WHATWG_C0_CONTROL_OR_SPACE]: code points 0x00..0x20 *)
Fixpoint lstrip_c0 (s : string) : string :=
  match s with
  | EmptyString => EmptyString
  | String c t => if Nat.leb (nat_of_ascii c) 32 then lstrip_c0 t else s
  end.

Definition min_opt (a : nat) (o : option nat) : nat :=
  match o with Some i => Nat.min a i | None => a end.

(** [_splitnetloc(url, 2)] with [url] starting with "//" *)
Definition splitnetloc (url : string) : string * string :=
  let rest := substring 2 (length url) url in
  let delim := min_opt (min_opt (min_opt (length rest) (Py.find_char "/" rest))
                                (Py.find_char "?" rest)) (Py.find_char "#" rest) in
  (substring 0 delim rest, substring delim (length rest) rest).

(** [s.split(c)]: all pieces between occurrences of [c], empty ones included. *)
Fixpoint split_on (c : ascii) (s : string) : list string :=
  match s with
  | EmptyString => [""]
  | String d t =>
      if Ascii.eqb c d then "" :: split_on c t
      else match split_on c t with
           | h :: r => String d h :: r
           | [] => [String d ""]
           end
  end.

(** [s.partition(c)]: (head, sep, tail), [sep] as a boolean *)
Definition partition (c : ascii) (s : string) : string * bool * string :=
  match Py.find_char c s with
  | Some i => (substring 0 i s, true, substring (S i) (length s) s)
  | None => (s, false, "")
  end.

(** last index of [c] in [s], if any *)
Fixpoint rfind_char (c : ascii) (s : string) (i : nat) (acc : option nat) : option nat :=
  match s with
  | EmptyString => acc
  | String d t => rfind_char c t (S i) (if Ascii.eqb c d then Some i else acc)
  end.

(** [s.rpartition(c)[2]] *)
Definition rpartition_tail (c : ascii) (s : string) : string :=
  match rfind_char c s 0 None with
  | Some i => substring (S i) (length s) s
  | None => s
  end.

Definition is_hex (c : ascii) : bool :=
  let n := nat_of_ascii c in
  Py.is_digit c || ((Nat.leb 97 n) && (Nat.leb n 102)) || ((Nat.leb 65 n) && (Nat.leb n 70)).

Definition digit_value (c : ascii) : Z :=
  let n := Z.of_nat (nat_of_ascii c) in
  if Py.is_digit c then n - 48 else if Py.is_lower c then n - 87 else n - 55.

(** [int(s, base)] on a string of digits of that base *)
Fixpoint int_digits (base : Z) (s : string) (acc : Z) : Z :=
  match s with
  | EmptyString => acc
  | String c t => int_digits base t (acc * base + digit_value c)%Z
  end.

(** [IPv4Address._parse_octet] *)
Definition parse_octet (octet_str : string) : option Z :=
  if String.eqb octet_str "" then None
  else if negb (all_chars Py.is_digit octet_str) then None
  else if Nat.ltb 3 (length octet_str) then None
  else if negb (String.eqb octet_str "0") && String.prefix "0" octet_str then None
  else let octet_int := int_digits 10 octet_str 0 in
       if Z.ltb 255 octet_int then None else Some octet_int.

(** [IPv4Address(s)._ip], [None] when the constructor raises *)
Definition ipv4_ip (addr_str : string) : option Z :=
  if Py.has_char "/" addr_str then None
  else if String.eqb addr_str "" then None
  else
    let octets := split_on "." addr_str in
    if negb (Nat.eqb (List.length octets) 4) then None
    else fold_left (fun acc o => match acc, parse_octet o with
                                 | Some a, Some v => Some (a * 256 + v)%Z
                                 | _, _ => None
                                 end) octets (Some 0%Z).

(** [IPv6Address._parse_hextet] *)
Definition parse_hextet (hextet_str : string) : option Z :=
  if negb (all_chars is_hex hextet_str) then None
  else if Nat.ltb 4 (length hextet_str) then None
  else if String.eqb hextet_str "" then None          (* int('', 16) *)
  else Some (int_digits 16 hextet_str 0).

Definition hex_digit (d : Z) : ascii :=
  ascii_of_nat (Z.to_nat (if Z.ltb d 10 then 48 + d else 87 + d)%Z).

Fixpoint hex_str_aux (fuel : nat) (n : Z) (acc : string) : string :=
  match fuel with
  | O => acc
  | S f => if Z.eqb n 0 then acc
           else hex_str_aux f (Z.div n 16) (String (hex_digit (Z.modulo n 16)) acc)
  end.

(** ['%x' % n] for [0 <= n <= 0xFFFF] *)
Definition hex_str (n : Z) : string :=
  if Z.eqb n 0 then "0" else hex_str_aux 4 n "".

(** the [for i in range(1, len(parts) - 1)] loop looking for the [::];
    [None] when a second one is found *)
Fixpoint skip_scan (ps : list string) (i : nat) (skip_index : option nat) : option (option nat) :=
  match ps with
  | [] => Some skip_index
  | p :: r =>
      if String.eqb p "" then
        match skip_index with
        | Some _ => None
        | None => skip_scan r (S i) (Some i)
        end
      else skip_scan r (S i) skip_index
  end.

(** [IPv6Address._ip_int_from_string] succeeds *)
Definition ipv6_ip_int_ok (ip_str : string) : bool :=
  if String.eqb ip_str "" then false else
  let parts0 := split_on ":" ip_str in
  if Nat.ltb (List.length parts0) 3 then false else
  let parts1 :=
    if Py.has_char "." (last parts0 "") then
      match ipv4_ip (last parts0 "") with
      | Some ipv4_int => Some (removelast parts0 ++
                               [hex_str (Z.land (Z.shiftr ipv4_int 16) 65535);
                                hex_str (Z.land ipv4_int 65535)])%list
      | None => None
      end
    else Some parts0 in
  match parts1 with
  | None => false
  | Some parts =>
      let n := List.length parts in
      if Nat.ltb 9 n then false else
      let bounds :=
        match skip_scan (firstn (n - 2) (tl parts)) 1 None with
        | None => None
        | Some (Some skip_index) =>
            let parts_hi := skip_index in
            let parts_lo := n - skip_index - 1 in
            let parts_hi := if String.eqb (hd "" parts) "" then parts_hi - 1 else parts_hi in
            let parts_lo := if String.eqb (last parts "") "" then parts_lo - 1 else parts_lo in
            if String.eqb (hd "" parts) "" && negb (Nat.eqb parts_hi 0) then None
            else if String.eqb (last parts "") "" && negb (Nat.eqb parts_lo 0) then None
            else if Nat.leb 8 (parts_hi + parts_lo) then None   (* parts_skipped < 1 *)
            else Some (parts_hi, parts_lo)
        | Some None =>
            if negb (Nat.eqb n 8) then None
            else if String.eqb (hd "" parts) "" then None
            else if String.eqb (last parts "") "" then None
            else Some (n, 0)
        end in
      match bounds with
      | None => false
      | Some (parts_hi, parts_lo) =>
          forallb (fun h => match parse_hextet h with Some _ => true | None => false end)
                  (firstn parts_hi parts ++ skipn (n - parts_lo) parts)%list
      end
  end.

(** [IPv6Address(s)] succeeds: no "/", a well-formed scope id, the address *)
Definition ipv6_ok (addr_str : string) : bool :=
  if Py.has_char "/" addr_str then false else
  match partition "%" addr_str with
  | (addr, false, _) => ipv6_ip_int_ok addr
  | (addr, true, scope_id) =>
      if String.eqb scope_id "" || Py.has_char "%" scope_id then false
      else ipv6_ip_int_ok addr
  end.

Fixpoint span_hex (s : string) : string * string :=
  match s with
  | String c t => if is_hex c then let '(h, r) := span_hex t in (String c h, r) else ("", s)
  | EmptyString => ("", "")
  end.

(** [re.match(r"\Av[a-fA-F0-9]+\..+\Z", hostname)] *)
Definition ipvfuture_ok (hostname : string) : bool :=
  match hostname with
  | String "v" t =>
      let '(hx, r) := span_hex t in
      negb (String.eqb hx "") &&
      match r with
      | String "." r' => negb (String.eqb r' "") && negb (Py.has_char "010" r')
      | _ => false
      end
  | _ => false
  end.

(** [_check_bracketed_host(hostname)] *)
Definition check_bracketed_host (hostname : string) : result unit :=
  if String.prefix "v" hostname then
    (if ipvfuture_ok hostname then Ok tt else Err InvalidIPvFuture)
  else
    match ipv4_ip hostname with                (* ipaddress.ip_address *)
    | Some _ => Err IPv4InBrackets
    | None => if ipv6_ok hostname then Ok tt else Err NotAnIPAddress
    end.

(** [_check_bracketed_netloc(netloc)] *)
Definition check_bracketed_netloc (netloc : string) : result unit :=
  let hostname_and_port := rpartition_tail "@" netloc in
  match partition "[" hostname_and_port with
  | (before_bracket, true, bracketed) =>
      if negb (String.eqb before_bracket "") then Err InvalidIPv6URL else
      let '(hostname, _, port) := partition "]" bracketed in
      if negb (String.eqb port "") && negb (String.prefix ":" port) then Err InvalidIPv6URL
      else check_bracketed_host hostname
  | (_, false, _) =>
      let '(hostname, _, _) := partition ":" hostname_and_port in
      check_bracketed_host hostname
  end.

Definition urlsplit (url0 : string) :
    result (string * string * string * string * string) :=
  let url1 := lstrip_c0 url0 in
  let url2 := Py.remove_char "009" (Py.remove_char "013" (Py.remove_char "010" url1)) in
  let '(scheme, url3) :=
    match Py.find_char ":" url2 with
    | Some (S _ as i) =>
        match url2 with
        | String c0 _ =>
            if Py.is_alpha c0 && all_chars scheme_char (substring 0 i url2)
            then (Py.lower (substring 0 i url2), substring (S i) (length url2) url2)
            else ("", url2)
        | EmptyString => ("", url2)
        end
    | _ => ("", url2)
    end in
  let bad '(netloc, _) :=
    (Py.has_char "[" netloc && negb (Py.has_char "]" netloc)) ||
    (Py.has_char "]" netloc && negb (Py.has_char "[" netloc)) in
  let nl := if String.prefix "//" url3 then splitnetloc url3 else ("", url3) in
  if bad nl then Err InvalidIPv6URL else
  let '(netloc, url4) := nl in
  match (if Py.has_char "[" netloc && Py.has_char "]" netloc
         then check_bracketed_netloc netloc else Ok tt) with
  | Err e => Err e
  | Ok _ =>
  let '(url5, fragment) :=
    if Py.has_char "#" url4 then Py.split_once "#" url4 else (url4, "") in
  let '(url6, query) :=
    if Py.has_char "?" url5 then Py.split_once "?" url5 else (url5, "") in
  Ok (scheme, netloc, url6, query, fragment)
  end.

Definition uses_params : list string :=
  [""; "ftp"; "hdl"; "prospero"; "http"; "imap"; "https"; "shttp"; "rtsp";
   "rtsps"; "rtspu"; "sip"; "sips"; "mms"; "sftp"; "tel"].

(** last index of "/" in [s], if any *)
Fixpoint rfind_slash (s : string) (i : nat) (acc : option nat) : option nat :=
  match s with
  | EmptyString => acc
  | String c t => rfind_slash t (S i) (if Ascii.eqb c "/" then Some i else acc)
  end.

(** [_splitparams(url)] *)
Definition splitparams (url : string) : string * string :=
  let cut i := (substring 0 i url, substring (S i) (length url) url) in
  match rfind_slash url 0 None with
  | Some j =>
      match Py.find_char ";" (substring j (length url) url) with
      | Some k => cut (j + k)
      | None => (url, "")
      end
  | None => match Py.find_char ";" url with
            | Some i => cut i
            | None => (url, "")
            end
  end.

Definition urlparse (url : string) : result parse_result :=
  match urlsplit url with
  | Err e => Err e
  | Ok (scheme, netloc, u, query, fragment) =>
      let '(p, params) :=
        if existsb (String.eqb scheme) uses_params && Py.has_char ";" u
        then splitparams u else (u, "") in
      Ok {| scheme := scheme; netloc := netloc; path := p; params := params;
            query := query; fragment := fragment |}
  end.

End UrlParse.

(** ** scraper/platform_detector.py *)
Module PlatformDetector.

(** [PLATFORMS], in dict insertion order *)
Definition PLATFORMS : list (string * list string) :=
  [("sidearm", ["sidearmsports.com"; "sidearmstats.com"; "asics.com"]);
   ("presto", ["prestosports.com"; "presto-stats.com"]);
   ("genius", ["geniussports.com"; "ncaa.org"]);
   ("statbroadcast", ["statbroadcast.com"]);
   ("ncaa", ["ncaa.com"; "ncaa.org"]);
   ("stretch", ["stretchinternet.com"; "hudl.com"]);
   ("wmt", ["wmt.digital"]);
   ("revel", ["revelxp.com"]);
   ("d3sports", ["d3baseball.com"; "d3sports.com"])].

(** [for platform, patterns in PLATFORMS.items():
       if any(pattern in domain for pattern in patterns): return platform] *)
Fixpoint domain_lookup (ps : list (string * list string)) (domain : string)
    : option string :=
  match ps with
  | [] => None
  | (platform, patterns) :: rest =>
      if existsb (fun pattern => Py.contains pattern domain) patterns
      then Some platform else domain_lookup rest domain
  end.

(** the HTML markers, checked only [if html:] *)
Definition html_lookup (html : option string) : option string :=
  match html with
  | None | Some EmptyString => None
  | Some h =>
      let html_lower := Py.lower h in
      if Py.contains "sidearm sports" html_lower || Py.contains "sidearmstats" html_lower
      then Some "sidearm"
      else if Py.contains "prestosports" html_lower || Py.contains "presto stats" html_lower
      then Some "presto"
      else if Py.contains "genius sports" html_lower then Some "genius"
      else if Py.contains "wmt digital" html_lower then Some "wmt"
      else if Py.contains "stretch internet" html_lower then Some "stretch"
      else if Py.contains "statbroadcast" html_lower then Some "statbroadcast"
      else None
  end.

Definition detect_platform (url : string) (html : option string) : result string :=
  match UrlParse.urlparse url with
  | Err e => Err e
  | Ok parsed_url =>
      let domain := Py.lower (UrlParse.netloc parsed_url) in
      match domain_lookup PLATFORMS domain with
      | Some platform => Ok platform
      | None =>
          match html_lookup html with
          | Some platform => Ok platform
          | None =>
              let path := Py.lower (UrlParse.path parsed_url) in
              if Py.contains "/sidearmstats/" path then Ok "sidearm"
              else if Py.contains "/stats/" path && Py.contains "ncaa" domain
              then Ok "ncaa"
              else Ok "generic"
          end
      end
  end.

End PlatformDetector.

(** ** scraper/config.py *)
Module Config.

(** [PLATFORM_DOMAINS], in dict insertion order *)
Definition PLATFORM_DOMAINS : list (string * list string) :=
  [("sidearm", ["sidearmdev"; "sidearmsports"; ".com"]);
   ("prestosports", ["prestosports.com"; "prestosports"]);
   ("ncaa", ["ncaa.com"])].

Fixpoint first_pattern (ps : list (string * list string)) (domain_lower : string)
    : option string :=
  match ps with
  | [] => None
  | (platform, patterns) :: rest =>
      if existsb (fun pattern => Py.contains pattern domain_lower) patterns
      then Some platform else first_pattern rest domain_lower
  end.

Definition detect_platform (domain : string) : string :=
  match first_pattern PLATFORM_DOMAINS (Py.lower domain) with
  | Some platform => platform
  | None => "generic"
  end.

Record school_config := { domain : string; roster_url : string; type : option string }.

Definition SCHOOLS : list (string * school_config) :=
  [("Belmont", {| domain := "belmontbruins.com";
                  roster_url := "https://belmontbruins.com/sports/baseball/roster";
                  type := Some "sidearm" |});
   ("Tennessee", {| domain := "utsports.com";
                    roster_url := "https://utsports.com/sports/baseball/roster";
                    type := Some "sidearm" |});
   ("Vanderbilt", {| domain := "vucommodores.com";
                     roster_url := "https://vucommodores.com/sports/baseball/roster";
                     type := Some "sidearm" |});
   ("Lipscomb", {| domain := "lipscombsports.com";
                   roster_url := "https://lipscombsports.com/sports/baseball/roster";
                   type := Some "sidearm" |})].

(** [dict.get] on an association list with unique keys *)
Fixpoint lookup {A} (k : string) (d : list (string * A)) : option A :=
  match d with
  | [] => None
  | (k', v) :: rest => if String.eqb k k' then Some v else lookup k rest
  end.

(** [get_roster_url(school_name, sport)]; a configured school's dict is
    never empty, so [not school_config] holds only for a missing school. *)
Definition get_roster_url (school_name sport : string) : result string :=
  match lookup school_name SCHOOLS with
  | None => Err SchoolNotConfigured
  | Some school_config =>
      let sport_path := if existsb (String.eqb (Py.lower sport)) ["baseball"; "softball"]
                        then Py.lower sport else "baseball" in
      Ok ("https://" ++ domain school_config ++ "/sports/" ++ sport_path ++ "/roster")
  end.

End Config.

(** ** scraper/schools_database.py *)
Module SchoolsDatabase.

Record db_config := { ncaa_name : string; platform : string; division : string;
                      sport : string; team_website : string }.

(** [SCHOOLS_DB], in dict insertion order *)
Definition SCHOOLS_DB : list (string * db_config) :=
  [("Georgia Tech", {| ncaa_name := "Georgia Institute of Technology"; platform := "sidearm";
                       division := "D1"; sport := "baseball";
                       team_website := "https://ramblinwreck.com/sports/baseball/schedule" |});
   ("North Carolina", {| ncaa_name := "University of North Carolina"; platform := "sidearm";
                         division := "D1"; sport := "baseball";
                         team_website := "https://goheels.com/sports/baseball/schedule" |});
   ("Oklahoma", {| ncaa_name := "University of Oklahoma"; platform := "sidearm";
                   division := "D1"; sport := "softball";
                   team_website := "https://soonersports.com/sports/softball/schedule" |});
   ("Belmont Abbey", {| ncaa_name := "Belmont Abbey College"; platform := "presto";
                        division := "D2"; sport := "baseball";
                        team_website := "https://abbeyathletics.com/sports/baseball/schedule" |})].

(** the loop of [get_school_config(school_name, sport)] over a table *)
Fixpoint get_school_config_in (db : list (string * db_config)) (school_name sport0 : string)
    : option db_config :=
  match db with
  | [] => None
  | (name, config) :: rest =>
      if String.eqb (Py.lower name) (Py.lower school_name) && String.eqb (sport config) sport0
      then Some config else get_school_config_in rest school_name sport0
  end.

Definition get_school_config := get_school_config_in SCHOOLS_DB.

End SchoolsDatabase.

(** ** scraper/find_player_url.py *)
Module FindPlayerUrl.

(** [re.sub(r'\s+', ' ', s)] *)
Fixpoint collapse_ws (s : string) (in_ws : bool) : string :=
  match s with
  | EmptyString => if in_ws then " " else ""
  | String c t =>
      if Py.is_space c then collapse_ws t true
      else if in_ws then String " " (String c (collapse_ws t false))
      else String c (collapse_ws t false)
  end.

(** [normalize_name(name)]:
    [re.sub(r'\s+', ' ', name.lower().strip())] *)
Definition normalize_name (name : string) : string :=
  collapse_ws (Py.strip (Py.lower name)) false.

(** A roster card as [find_player_url] reads it: the text of the element
    selected by [player_name] (if any), the text of the element selected by
    [player_number] (if any), and the [href] attribute of the link element
    found by [player_link] or by [find_parent('a') or find('a')] (if there is
    such an element carrying an [href]). *)
Record card := { name_text : option string;
                 number_text : option string;
                 link_href : option string }.

(** The fetched roster page: for a selector profile, the list of cards that
    its [roster_card] selector selects, in document order. *)
Definition roster_page := string -> list card.

(** [get_platform_selectors]: the profile key that is used *)
Definition selectors_key (platform_type : string) : string :=
  if existsb (String.eqb platform_type) ["sidearm"; "prestosports"; "ncaa"; "generic"]
  then platform_type else "generic".

(** [s.rsplit('/', 1)[0]] *)
Definition rsplit_slash_head (s : string) : string :=
  match UrlParse.rfind_slash s 0 None with
  | Some j => substring 0 j s
  | None => s
  end.

(** making the profile link absolute *)
Definition absolute_url (cfg : Config.school_config) (player_url : string) : string :=
  if Py.startswith player_url "/" then
    "https://" ++ Config.domain cfg ++ player_url
  else if negb (Py.startswith player_url "http") then
    rsplit_slash_head (Config.roster_url cfg) ++ "/" ++ player_url
  else player_url.

(** [name_match and number_match] for one card *)
Definition name_match (normalized_player card_name : string) : bool :=
  Py.contains normalized_player card_name || Py.contains card_name normalized_player.

(** [number_elem.get_text().strip() if number_elem else ""] *)
Definition card_number (c : card) : string :=
  match number_text c with Some t => Py.strip t | None => "" end.

(** the [for card in player_cards] loop *)
Fixpoint search (cfg : Config.school_config) (platform_type normalized_player jersey_str : string)
    (cards : list card) : option (string * string) :=
  match cards with
  | [] => None
  | c :: rest =>
      match name_text c with
      | None => search cfg platform_type normalized_player jersey_str rest
      | Some raw_name =>
          let card_name := normalize_name raw_name in
          let card_number := card_number c in
          if name_match normalized_player card_name && String.eqb jersey_str card_number then
            match link_href c with
            | Some (String _ _ as href) => Some (absolute_url cfg href, platform_type)
            | _ => search cfg platform_type normalized_player jersey_str rest
            end
          else search cfg platform_type normalized_player jersey_str rest
      end
  end.

(** [find_player_url(player_name, jersey_number, school)] over a school
    table and the HTTP fetch ([None]: [requests] raised). *)
Definition find_player_url_in (schools : list (string * Config.school_config))
    (fetch : string -> option roster_page)
    (player_name jersey_number school : string) : result (string * string) :=
  match Config.lookup school schools with
  | None => Err SchoolNotConfigured
  | Some cfg =>
      let platform_type0 := match Config.type cfg with Some t => t | None => "generic" end in
      let platform_type := if String.eqb platform_type0 "generic"
                           then Config.detect_platform (Config.domain cfg)
                           else platform_type0 in
      match fetch (Config.roster_url cfg) with
      | None => Err RosterFetchFailed
      | Some page =>
          let normalized_player := normalize_name player_name in
          let jersey_str := Py.strip jersey_number in
          let player_cards := page (selectors_key platform_type) in
          match player_cards with
          | [] => Err NoPlayersOnRoster
          | _ =>
              match search cfg platform_type normalized_player jersey_str player_cards with
              | Some m => Ok m
              | None => Err (PlayerNotFound (List.length player_cards))
              end
          end
      end
  end.

Definition find_player_url := find_player_url_in Config.SCHOOLS.

End FindPlayerUrl.

(** ** scraper/fuzzy_matcher.py *)
Module FuzzyMatcher.

Definition SUFFIXES : list string := ["jr"; "sr"; "iii"; "iv"; "v"].

(** Does [\s+(jr|sr|iii|iv|v)\.?$] (ignoring case) match at the start of
    [s]?  If so, the text after the match that [$] leaves in place
    ("" or the final newline). *)
Definition suffix_tail (s : string) : option string :=
  let s' := Py.lstrip s in
  if Nat.eqb (length s') (length s) then None else
  let low := Py.lower s' in
  let tail_of (x : string) : option string :=
    if String.prefix x low then
      let r := substring (length x) (length low) low in
      if String.eqb r "" || String.eqb r "." then Some ""
      else if String.eqb r (String "010" "") || String.eqb r (String "." (String "010" ""))
      then Some (String "010" "")
      else None
    else None in
  fold_right (fun x acc => match tail_of x with Some e => Some e | None => acc end)
             None SUFFIXES.

(** [re.sub(r'\s+(jr|sr|iii|iv|v)\.?$', '', name, flags=re.IGNORECASE)]:
    the leftmost match is removed. *)
Fixpoint remove_suffix (s : string) : string :=
  match suffix_tail s with
  | Some e => e
  | None => match s with
            | EmptyString => EmptyString
            | String c t => String c (remove_suffix t)
            end
  end.

(** [re.sub(r'[^a-zA-Z\s]', '', s)] *)
Fixpoint keep_alpha_space (s : string) : string :=
  match s with
  | EmptyString => EmptyString
  | String c t => if Py.is_alpha c || Py.is_space c
                  then String c (keep_alpha_space t) else keep_alpha_space t
  end.

Definition normalize_name (name0 : string) : string :=
  match name0 with
  | EmptyString => ""
  | _ =>
      let name1 := remove_suffix name0 in
      let parts := Py.split name1 in
      let name2 := if Nat.ltb 2 (List.length parts)
                   then hd "" parts ++ " " ++ last parts ""
                   else name1 in
      Py.strip (Py.lower (keep_alpha_space name2))
  end.

Definition first_char (s : string) : option ascii :=
  match s with EmptyString => None | String c _ => Some c end.

Definition names_match (name1 name2 : string) : bool :=
  let norm1 := normalize_name name1 in
  let norm2 := normalize_name name2 in
  if String.eqb norm1 norm2 then true else
  match Py.split norm1, Py.split norm2 with
  | [f1; l1], [f2; l2] =>
      String.eqb l1 l2 &&
      match first_char f1, first_char f2 with
      | Some a, Some b => Ascii.eqb a b
      | _, _ => false
      end
  | _, _ => false
  end.

(** [find_best_match(target_name, candidate_names)] *)
Fixpoint find_best_match (target_name : string) (candidate_names : list string) : option string :=
  match candidate_names with
  | [] => None
  | candidate :: rest =>
      if names_match target_name candidate then Some candidate
      else find_best_match target_name rest
  end.

End FuzzyMatcher.

(** ** scraper/data_cleaner.py *)
Module DataCleaner.

(** A Python number returned by [clean_stat_value].  A [float] is
    represented by the exact decimal value of the text it was parsed from;
    rounding to binary64 changes the value but not the kind, and no claim
    below depends on it. *)
Inductive pynum := PyInt (z : Z) | PyFloat (q : Q).

(** [re.sub(r'[^\d\.-]', '', s)] *)
Fixpoint keep_numeric (s : string) : string :=
  match s with
  | EmptyString => EmptyString
  | String c t => if Py.is_digit c || Ascii.eqb c "." || Ascii.eqb c "-"
                  then String c (keep_numeric t) else keep_numeric t
  end.

(** Value and number of a run of decimal digits ([None] on a non-digit). *)
Fixpoint digits_value (s : string) (acc : Z) (n : nat) : option (Z * nat) :=
  match s with
  | EmptyString => Some (acc, n)
  | String c t =>
      if Py.is_digit c
      then digits_value t (10 * acc + Z.of_nat (nat_of_ascii c - 48))%Z (S n)
      else None
  end.

Definition sign_split (s : string) : Z * string :=
  match s with
  | String "-" t => ((-1)%Z, t)
  | String "+" t => (1%Z, t)
  | _ => (1%Z, s)
  end.

(** [sys.get_int_max_str_digits()] default (Python 3.11+) *)
Definition INT_MAX_STR_DIGITS : nat := 4300.

(** [int(s)] on text made of digits, "." and "-" (the only text that
    [clean_stat_value] hands to it: whitespace, "_" and letters never reach
    it). *)
Definition py_int (s : string) : result Z :=
  let '(sg, body) := sign_split (Py.strip s) in
  match digits_value body 0 0 with
  | Some (v, S n) => if Nat.leb (S n) INT_MAX_STR_DIGITS then Ok (sg * v)%Z
                     else Err IntParseError
  | _ => Err IntParseError
  end.

(** [float(s)] on the same alphabet: [sign? (digits ("." digits?)? | "." digits)];
    exponents, "inf" and "nan" need letters and cannot occur. *)
Definition py_float (s : string) : result Q :=
  let '(sg, body) := sign_split (Py.strip s) in
  let '(a, b) := Py.split_once "." body in
  match digits_value a 0 0, digits_value b 0 0 with
  | Some (va, na), Some (vb, nb) =>
      if Nat.eqb (na + nb) 0 then Err FloatParseError
      else Ok (Qmake (sg * (va * 10 ^ Z.of_nat nb + vb))%Z (Z.to_pos (10 ^ Z.of_nat nb)))
  | _, _ => Err FloatParseError
  end.

(** [clean_stat_value(value)]; [None] is Python's [None].  The [try] block
    catches [ValueError], which is what [int] and [float] raise. *)
Definition clean_stat_value (value : option string) : result pynum :=
  match value with
  | None | Some "" | Some "-" => Ok (PyFloat 0)
  | Some v =>
      let clean_val := keep_numeric v in
      let attempt :=
        if Py.has_char "." clean_val
        then match py_float clean_val with Ok q => Ok (PyFloat q) | Err e => Err e end
        else match py_int clean_val with Ok z => Ok (PyInt z) | Err e => Err e end in
      match attempt with
      | Ok n => Ok n
      | Err IntParseError | Err FloatParseError => Ok (PyFloat 0)
      | Err e => Err e
      end
  end.

(** *** normalize_date: [datetime.strptime] on the four formats *)

(** Format directives as [_strptime] compiles them into a regular
    expression (compiled with [re.IGNORECASE]); a space of the format
    becomes [\s+]. *)
Inductive directive := Db | Dd | Dm | Dy | DY | WS | Lit (c : ascii).

Record fields := { f_year : option Z; f_month : Z; f_day : Z }.

Definition digit_at (s : string) : option (Z * string) :=
  match s with
  | String c t => if Py.is_digit c then Some (Z.of_nat (nat_of_ascii c - 48), t) else None
  | EmptyString => None
  end.

Definition MONTHS : list string :=
  ["jan"; "feb"; "mar"; "apr"; "may"; "jun"; "jul"; "aug"; "sep"; "oct"; "nov"; "dec"].

(** all ways to match [\s+] at the start of [s] *)
Fixpoint ws_splits (s : string) : list string :=
  match s with
  | String c t => if Py.is_space c then t :: ws_splits t else []
  | EmptyString => []
  end.

(** all (value, rest) pairs for the alternatives of one numeric directive *)
Definition two_digits (s : string) (ok : Z -> Z -> bool) : list (Z * string) :=
  match digit_at s with
  | Some (a, t) => match digit_at t with
                   | Some (b, u) => if ok a b then [(10 * a + b, u)%Z] else []
                   | None => []
                   end
  | None => []
  end.

Definition one_digit (s : string) (ok : Z -> bool) : list (Z * string) :=
  match digit_at s with
  | Some (a, t) => if ok a then [(a, t)] else []
  | None => []
  end.

(** [%d]: [3[01]|[12]\d|0[1-9]|[1-9]| [1-9]] *)
Definition match_d (s : string) : list (Z * string) :=
  two_digits s (fun a b => (a =? 3)%Z && (b <=? 1)%Z) ++
  two_digits s (fun a _ => ((a =? 1) || (a =? 2))%Z) ++
  two_digits s (fun a b => (a =? 0)%Z && (1 <=? b)%Z) ++
  one_digit s (fun a => (1 <=? a)%Z) ++
  match s with
  | String " " t => one_digit t (fun a => (1 <=? a)%Z)
  | _ => []
  end.

(** [%m]: [1[0-2]|0[1-9]|[1-9]] *)
Definition match_m (s : string) : list (Z * string) :=
  two_digits s (fun a b => (a =? 1)%Z && (b <=? 2)%Z) ++
  two_digits s (fun a b => (a =? 0)%Z && (1 <=? b)%Z) ++
  one_digit s (fun a => (1 <=? a)%Z).

(** [%y]: [\d\d]; [%Y]: [\d\d\d\d] *)
Definition match_y (s : string) : list (Z * string) := two_digits s (fun _ _ => true).

Definition match_Y (s : string) : list (Z * string) :=
  match two_digits s (fun _ _ => true) with
  | [(hi, t)] => map (fun '(lo, u) => (100 * hi + lo, u)%Z) (two_digits t (fun _ _ => true))
  | _ => []
  end.

(** [%b]: a month abbreviation of the C locale, any case *)
Definition match_b (s : string) : list (Z * string) :=
  let low := Py.lower (substring 0 3 s) in
  let fix go (ms : list string) (i : Z) :=
    match ms with
    | [] => []
    | m :: rest => if String.eqb m low then [(i, substring 3 (length s) s)] else go rest (i + 1)%Z
    end in
  go MONTHS 1%Z.

(** All the ways the compiled format matches a prefix of the input, with
    the fields matched so far ([year] is [None] until [%y]/[%Y]). *)
Fixpoint match_format (fmt : list directive) (s : string) (f : fields)
    : list (fields * string) :=
  match fmt with
  | [] => [(f, s)]
  | d :: rest =>
      let cont (g : fields) (t : string) := match_format rest t g in
      match d with
      | WS => flat_map (fun t => cont f t) (ws_splits s)
      | Lit c => match s with
                 | String c' t => if Ascii.eqb c c' then cont f t else []
                 | EmptyString => []
                 end
      | Db => flat_map (fun '(v, t) => cont {| f_year := f_year f; f_month := v; f_day := f_day f |} t)
                       (match_b s)
      | Dm => flat_map (fun '(v, t) => cont {| f_year := f_year f; f_month := v; f_day := f_day f |} t)
                       (match_m s)
      | Dd => flat_map (fun '(v, t) => cont {| f_year := f_year f; f_month := f_month f; f_day := v |} t)
                       (match_d s)
      | Dy => flat_map (fun '(v, t) =>
                          cont {| f_year := Some (if (v <=? 68)%Z then 2000 + v else 1900 + v)%Z;
                                  f_month := f_month f; f_day := f_day f |} t)
                       (match_y s)
      | DY => flat_map (fun '(v, t) => cont {| f_year := Some v; f_month := f_month f;
                                               f_day := f_day f |} t)
                       (match_Y s)
      end
  end.

Definition is_leap (y : Z) : bool :=
  ((y mod 4 =? 0) && negb (y mod 100 =? 0) || (y mod 400 =? 0))%Z.

Definition days_in_month (y m : Z) : Z :=
  if (m =? 2)%Z then (if is_leap y then 29 else 28)%Z
  else if existsb (Z.eqb m) [4; 6; 9; 11]%Z then 30%Z else 31%Z.

Definition valid_date (y m d : Z) : bool :=
  ((1 <=? y) && (y <=? 9999) && (1 <=? m) && (m <=? 12) &&
   (1 <=? d) && (d <=? days_in_month y m))%Z.

(** [datetime.strptime(date_str, fmt).date()] as (year, month, day).  The
    regular expression is tried with [match]; whatever it matches must reach
    the end of the input ("unconverted data remains" otherwise).  For these
    four formats a match that reaches the end is unique, so taking the one
    that reaches the end is the same as taking the first match.  A missing
    year is 1900; the date must exist (1900 is not a leap year, so "Feb 29"
    raises even with the Python 3.13 leap-year workaround). *)
Definition strptime (date_str : string) (fmt : list directive) : option (Z * Z * Z) :=
  let full := filter (fun '(_, rest) => String.eqb rest "")
                     (match_format fmt date_str {| f_year := None; f_month := 1%Z; f_day := 1%Z |}) in
  match full with
  | (f, _) :: _ =>
      let y := match f_year f with Some y => y | None => 1900%Z end in
      if valid_date y (f_month f) (f_day f) then Some (y, f_month f, f_day f) else None
  | [] => None
  end.

Definition FMT_b_d_Y : list directive := [Db; WS; Dd; Lit ","; WS; DY].
Definition FMT_b_d : list directive := [Db; WS; Dd].
Definition FMT_m_d_y : list directive := [Dm; Lit "/"; Dd; Lit "/"; Dy].
Definition FMT_m_d_Y : list directive := [Dm; Lit "/"; Dd; Lit "/"; DY].

Definition formats : list (list directive) := [FMT_b_d_Y; FMT_b_d; FMT_m_d_y; FMT_m_d_Y].

Definition digit_char (n : Z) : ascii := ascii_of_nat (48 + Z.to_nat n).

(** [str(n).zfill(w)] for [0 <= n < 10^w] *)
Fixpoint pad (w : nat) (n : Z) (acc : string) : string :=
  match w with
  | O => acc
  | S w' => pad w' (n / 10)%Z (String (digit_char (n mod 10)) acc)
  end.

(** [date.isoformat()] *)
Definition isoformat (y m d : Z) : string :=
  pad 4 y "" ++ "-" ++ pad 2 m "" ++ "-" ++ pad 2 d "".

Definition is_fmt_b_d (fmt : list directive) : bool :=
  match fmt with [Db; WS; Dd] => true | _ => false end.

Fixpoint try_formats (current_year : Z) (date_str : string) (fs : list (list directive))
    : option string :=
  match fs with
  | [] => None
  | fmt :: rest =>
      match strptime date_str fmt with
      | Some (y, m, d) =>
          if is_fmt_b_d fmt then
            (* dt.replace(year=current_year) *)
            if valid_date current_year m d then Some (isoformat current_year m d)
            else try_formats current_year date_str rest
          else Some (isoformat y m d)
      | None => try_formats current_year date_str rest
      end
  end.

(** [normalize_date(date_str)], [current_year] being [datetime.now().year];
    the result [None] is Python's [None]. *)
Definition normalize_date (current_year : Z) (date_str : option string) : option string :=
  match date_str with
  | None | Some EmptyString => None
  | Some s =>
      match try_formats current_year s formats with
      | Some iso => Some iso
      | None => Some s
      end
  end.

(** [re.sub(r'[^a-z\s-]', '', s)] *)
Fixpoint keep_lower_space_dash (s : string) : string :=
  match s with
  | EmptyString => EmptyString
  | String c t => if Py.is_lower c || Py.is_space c || Ascii.eqb c "-"
                  then String c (keep_lower_space_dash t) else keep_lower_space_dash t
  end.

(** [sanitize_player_name(name)]; [None] is Python's [None]. *)
Definition sanitize_player_name (name : option string) : string :=
  match name with
  | None | Some EmptyString => ""
  | Some n =>
      let n1 := Py.lower n in
      let n2 := Py.strip (FindPlayerUrl.collapse_ws n1 false) in
      keep_lower_space_dash n2
  end.

End DataCleaner.

(** ** The HTML that the parsers look at (BeautifulSoup) *)
Module Html.

(** A table cell: [<td>] or [<th>] with its [get_text()]. *)
Inductive cell := TD (text : string) | TH (text : string).

Definition cell_text (c : cell) : string := match c with TD t | TH t => t end.

Definition is_th (c : cell) : bool := match c with TH _ => true | TD _ => false end.
Definition is_td (c : cell) : bool := negb (is_th c).

(** A [<table>]: its CSS classes and its [<tr>] rows in document order. *)
Record table := { tbl_classes : list string; tbl_rows : list (list cell) }.

(** [[th.get_text().strip() for th in table.find_all('th')]] *)
Definition th_texts (t : table) : list string :=
  map (fun c => Py.strip (cell_text c)) (filter is_th (List.concat (tbl_rows t))).

(** [table.find_all('tr')[1:]] *)
Definition data_rows (t : table) : list (list cell) := tl (tbl_rows t).

(** A dict with string keys, in insertion order: [d[k] = v]. *)
Fixpoint dict_set {A} (k : string) (v : A) (d : list (string * A)) : list (string * A) :=
  match d with
  | [] => [(k, v)]
  | (k', v') :: rest => if String.eqb k k' then (k, v) :: rest else (k', v') :: dict_set k v rest
  end.

(** [d.get(k)] *)
Definition dict_get {A} (k : string) (d : list (string * A)) : option A := Config.lookup k d.

(** [for i, header in enumerate(headers): if i < len(cells): d[header] = f(cells[i])],
    starting from the empty dict. *)
Fixpoint zip_into {A B} (f : B -> A) (headers : list string) (cells : list B)
    (d : list (string * A)) : list (string * A) :=
  match headers, cells with
  | h :: hs, c :: cs => zip_into f hs cs (dict_set h (f c) d)
  | _, _ => d
  end.

End Html.

(** ** scraper/parse_game_log.py *)
Module ParseGameLog.
Import Html.

(** A game record: the dict from header text to stripped cell text. *)
Definition game := list (string * string).

(** The profile page as the Selenium driver renders it: whether the Stats
    tab [a[href*='#sidearm-roster-player-stats']] becomes clickable, and the
    tables of [driver.page_source] (the season selection is best-effort and
    does not fail). *)
Record page := { pg_stats_tab : bool; pg_tables : list table }.

(** The driver: whether [setup_driver()] succeeds, what [driver.get(url)]
    loads ([None]: it raises), and whether [driver.quit()] succeeds. *)
Record driver := { setup_ok : bool; load : string -> option page; quit_ok : bool }.

Definition build_game (headers : list string) (row : list cell) : game :=
  zip_into (fun c => Py.strip (cell_text c)) headers (filter is_td row) [].

Definition truthy (o : option string) : bool :=
  match o with Some (String _ _) => true | _ => false end.

(** rows of one game-log table, sidearm acceptance rule *)
Definition sidearm_rows (headers : list string) (rows : list (list cell)) : list game :=
  flat_map (fun row =>
    if Nat.ltb (List.length (filter is_td row)) 3 then [] else
    let game_data := build_game headers row in
    if truthy (dict_get "Date" game_data) &&
       negb (Py.contains "Total" (match dict_get "Date" game_data with
                                  | Some d => d | None => "" end))
    then [game_data] else []) rows.

Definition sidearm_tables (tables : list table) : list game :=
  flat_map (fun t =>
    let headers := th_texts t in
    if existsb (String.eqb "Date") headers && existsb (String.eqb "Opponent") headers
    then sidearm_rows headers (data_rows t) else []) tables.

Definition parse_sidearm_game_log (drv : driver) (player_url : string) : result (list game) :=
  match load drv player_url with
  | None => Err WebDriverError
  | Some pg =>
      if negb (pg_stats_tab pg) then Err StatsTabMissing else
      match sidearm_tables (pg_tables pg) with
      | [] => Err NoGameLogData
      | game_log => Ok game_log
      end
  end.

(** [soup.find_all('table', class_=lambda x: x and 'stats' in x.lower() if x else False)] *)
Definition presto_selected (t : table) : bool :=
  existsb (fun x => Py.contains "stats" (Py.lower x)) (tbl_classes t).

Definition presto_tables (tables : list table) : list game :=
  flat_map (fun t =>
    let headers := th_texts t in
    if existsb (String.eqb "Date") headers || existsb (String.eqb "Opponent") headers
    then flat_map (fun row =>
           if Nat.ltb (List.length (filter is_td row)) 3 then [] else
           let game_data := build_game headers row in
           if truthy (dict_get "Date" game_data) then [game_data] else [])
         (data_rows t)
    else []) (filter presto_selected tables).

Definition parse_prestosports_game_log (drv : driver) (player_url : string)
    : result (list game) :=
  match load drv player_url with
  | None => Err WebDriverError
  | Some pg => Ok (presto_tables (pg_tables pg))
  end.

(** [' '.join(headers)] *)
Fixpoint join_space (l : list string) : string :=
  match l with
  | [] => ""
  | [x] => x
  | x :: rest => x ++ " " ++ join_space rest
  end.

Definition generic_tables (tables : list table) : list game :=
  flat_map (fun t =>
    let headers := th_texts t in
    let joined := Py.lower (join_space headers) in
    if existsb (fun keyword => Py.contains keyword joined) ["date"; "opponent"; "game"]
    then flat_map (fun row =>
           if Nat.leb 3 (List.length (filter is_td row)) then
             let game_data := build_game headers row in
             match game_data with [] => [] | _ => [game_data] end
           else [])
         (data_rows t)
    else []) tables.

Definition parse_generic_game_log (drv : driver) (player_url : string) : result (list game) :=
  match load drv player_url with
  | None => Err WebDriverError
  | Some pg => Ok (generic_tables (pg_tables pg))
  end.

(** the [try] block: route to the platform parser *)
Definition platform_path (drv : driver) (player_url platform_type : string) : result (list game) :=
  if String.eqb platform_type "sidearm" then parse_sidearm_game_log drv player_url
  else if String.eqb platform_type "prestosports" then parse_prestosports_game_log drv player_url
  else parse_generic_game_log drv player_url.

(** [parse_game_log(player_url, platform_type, season)]: the [except]
    fallback and the [finally: driver.quit()], whose exception replaces the
    outcome of the [try]. *)
Definition parse_game_log (drv : driver) (player_url platform_type : string)
    : result (list game) :=
  if negb (setup_ok drv) then Err WebDriverError else
  let outcome :=
    match platform_path drv player_url platform_type with
    | Ok game_log => Ok game_log
    | Err e =>
        if negb (String.eqb platform_type "generic") then
          match parse_generic_game_log drv player_url with
          | Ok game_log => Ok game_log
          | Err _ => Err (GameLogFailed e)
          end
        else Err (GameLogFailed e)
    end in
  if quit_ok drv then outcome else Err WebDriverError.

End ParseGameLog.

(** ** scraper/box_score_scraper.py *)
Module BoxScore.
Import Html.

Definition has_class (c : string) (t : table) : bool := existsb (String.eqb c) (tbl_classes t).

Definition select_tables (platform : string) (tables : list table) : list table :=
  if String.eqb platform "sidearm" then
    filter (fun t => has_class "sidearm-table" t || has_class "box-score-table" t) tables
  else if String.eqb platform "presto" then
    filter (fun t => has_class "stats-table" t || has_class "linescore" t) tables
  else tables.

(** A parsed row: header text to [clean_stat_value] of the cell. *)
Definition record := list (string * result DataCleaner.pynum).

(** [parse_box_score(html, platform)] on the tables of [html] *)
Definition parse_box_score (tables : list table) (platform : string) : list record :=
  flat_map (fun t =>
    let headers := map Py.lower (th_texts t) in
    if existsb (fun header => existsb (String.eqb header) headers)
               ["player"; "name"; "ab"; "r"; "h"; "rbi"]
    then flat_map (fun row =>
           if Nat.leb 2 (List.length row) then
             let player_data :=
               zip_into (fun c => DataCleaner.clean_stat_value (Some (Py.strip (cell_text c))))
                        headers row [] in
             match player_data with [] => [] | _ => [player_data] end
           else [])
         (data_rows t)
    else []) (select_tables platform tables).

End BoxScore.

(** ** scraper/async_scraper.py: [scrape_batch] under asyncio

    [asyncio.gather] starts one [sem_scrape] task per player; each task
    enters [async with semaphore] (waiting while the semaphore's value is 0),
    runs its body (the log line and [await asyncio.sleep(1)], a suspension
    point) and leaves the block, releasing the semaphore.  Tasks interleave
    at any point the event loop chooses, which the step relation leaves
    open. *)
Module AsyncScraper.

Inductive task_state := Waiting | InBody | Finished.

Record state := { sem_value : nat; tasks : list task_state }.

(** [asyncio.Semaphore(max_concurrent)] and one waiting task per player *)
Definition init {A} (max_concurrent : nat) (players : list A) : state :=
  {| sem_value := max_concurrent; tasks := map (fun _ => Waiting) players |}.

Definition set_task (ts : list task_state) (i : nat) (x : task_state) : list task_state :=
  firstn i ts ++ x :: skipn (S i) ts.

Inductive step : state -> state -> Prop :=
| step_acquire s i :
    nth_error (tasks s) i = Some Waiting ->
    0 < sem_value s ->
    step s {| sem_value := pred (sem_value s); tasks := set_task (tasks s) i InBody |}
| step_release s i :
    nth_error (tasks s) i = Some InBody ->
    step s {| sem_value := S (sem_value s); tasks := set_task (tasks s) i Finished |}.

Inductive reachable (s0 : state) : state -> Prop :=
| reach_init : reachable s0 s0
| reach_step s s' : reachable s0 s -> step s s' -> reachable s0 s'.

Definition is_in_body (t : task_state) : bool :=
  match t with InBody => true | _ => false end.

(** the number of extraction tasks inside the semaphore block *)
Definition in_flight (s : state) : nat := List.length (filter is_in_body (tasks s)).

(** [scrape_batch(players, max_concurrent=10)] starts from this state *)
Definition scrape_batch {A} (players : list A) (max_concurrent : nat) : state :=
  init max_concurrent players.

(** [run_async_scrape(players)]: [asyncio.run(scrape_batch(players))], so
    the default [max_concurrent = 10] *)
Definition run_async_scrape {A} (players : list A) : state := scrape_batch players 10.

End AsyncScraper.

(** ** Auxiliary definitions and test inputs *)



(** the characters [clean_stat_value] keeps *)
Definition numeric_char (c : ascii) : bool :=
  Py.is_digit c || Ascii.eqb c "." || Ascii.eqb c "-".

Definition no_digit (s : string) : bool := UrlParse.all_chars (fun c => negb (Py.is_digit c)) s.

(** the body of [clean_stat_value] past its [None]/""/"-" guard *)
Definition clean_body (v : string) : result DataCleaner.pynum :=
  let clean_val := DataCleaner.keep_numeric v in
  if Py.has_char "." clean_val
  then match DataCleaner.py_float clean_val with
       | Ok q => Ok (DataCleaner.PyFloat q) | Err _ => Ok (DataCleaner.PyFloat 0) end
  else match DataCleaner.py_int clean_val with
       | Ok z => Ok (DataCleaner.PyInt z) | Err _ => Ok (DataCleaner.PyFloat 0) end.

(** Test inputs: a box-score table, roster pages, the spec's game-log table. *)
Definition box_table_pos : Html.table :=
  {| Html.tbl_classes := [];
     Html.tbl_rows := [[Html.TH "Player"; Html.TH "AB"; Html.TH "H"];
                       [Html.TD "Smith, John 2b"; Html.TD "4"; Html.TD "2"]] |}.

Definition davison_card : FindPlayerUrl.card :=
  {| FindPlayerUrl.name_text := Some "Charlie Davison";
     FindPlayerUrl.number_text := Some " 8 ";
     FindPlayerUrl.link_href := Some "/sports/baseball/roster/charlie-davison/1" |}.

Definition davison_fetch : string -> option FindPlayerUrl.roster_page :=
  fun _ => Some (fun _ => [davison_card]).

Definition davis_card : FindPlayerUrl.card :=
  {| FindPlayerUrl.name_text := Some "Charlie Davis";
     FindPlayerUrl.number_text := Some "8";
     FindPlayerUrl.link_href := Some "charlie-davis/2" |}.

Definition davis_fetch : string -> option FindPlayerUrl.roster_page :=
  fun _ => Some (fun _ => [davis_card]).

Definition spec_game_table : Html.table :=
  {| Html.tbl_classes := [];
     Html.tbl_rows := [[Html.TH "Date"; Html.TH "Opponent"; Html.TH "AB"; Html.TH "H"];
                       [Html.TD "Total"; Html.TD ""; Html.TD "40"; Html.TD "12"];
                       [Html.TD "2/14/2026"; Html.TD "Georgia State"; Html.TD "4"; Html.TD "2"]] |}.

Definition game_driver (stats_tab : bool) : ParseGameLog.driver :=
  {| ParseGameLog.setup_ok := true;
     ParseGameLog.load := fun _ => Some {| ParseGameLog.pg_stats_tab := stats_tab;
                                         ParseGameLog.pg_tables := [spec_game_table] |};
     ParseGameLog.quit_ok := true |}.

Definition total_row : ParseGameLog.game :=
  [("Date", "Total"); ("Opponent", ""); ("AB", "40"); ("H", "12")].

Definition georgia_state_row : ParseGameLog.game :=
  [("Date", "2/14/2026"); ("Opponent", "Georgia State"); ("AB", "4"); ("H", "2")].


(** [find_player_url.normalize_name] output shape: the first character
    is not whitespace ([head_ok]), nor the last ([ends_ok]), and every
    whitespace character is a space followed by a non-whitespace one
    ([ws_ok]). *)
Definition head_ok (s : string) : bool :=
  match s with String c _ => negb (Py.is_space c) | EmptyString => true end.

Definition ends_ok (s : string) : bool := head_ok (Py.rev_str s "").

Fixpoint ws_ok (s : string) : bool :=
  match s with
  | EmptyString => true
  | String c t =>
      if Py.is_space c
      then Ascii.eqb c " " && (head_ok t && negb (String.eqb t "")) && ws_ok t
      else ws_ok t
  end.

(** tasks of [scrape_batch] still to run through the semaphore block: a
    waiting task has two steps left, a task in the block one *)
Definition weight (t : AsyncScraper.task_state) : nat :=
  match t with AsyncScraper.Waiting => 2 | AsyncScraper.InBody => 1 | AsyncScraper.Finished => 0 end.

Definition pending (s : AsyncScraper.state) : nat := list_sum (map weight (AsyncScraper.tasks s)).

Definition task_state_eq_dec (a b : AsyncScraper.task_state) : {a = b} + {a <> b}.
Proof. decide equality. Defined.

(** the platform id [find_player_url] computes for a school *)
Definition roster_platform (cfg : Config.school_config) : string :=
  let platform_type0 := match Config.type cfg with Some t => t | None => "generic" end in
  if String.eqb platform_type0 "generic" then Config.detect_platform (Config.domain cfg)
  else platform_type0.

(** a roster card matches the normalized query name and the stripped
    jersey number: it has a name element whose normalized text and the
    query are substrings one of the other, its jersey text equals the query
    number, and it has a non-empty link *)
Definition card_qualifies (normalized_player jersey_str : string)
    (c : FindPlayerUrl.card) : bool :=
  match FindPlayerUrl.name_text c, FindPlayerUrl.link_href c with
  | Some raw, Some href =>
      FindPlayerUrl.name_match normalized_player (FindPlayerUrl.normalize_name raw) &&
      String.eqb (FindPlayerUrl.card_number c) jersey_str && negb (String.eqb href "")
  | _, _ => false
  end.

Definition none_qualifies (normalized_player jersey_str : string)
    (cards : list FindPlayerUrl.card) : bool :=
  forallb (fun c => negb (card_qualifies normalized_player jersey_str c)) cards.

(** a card with a name element, the given jersey number and a non-empty link *)
Definition has_name_number_link (jersey_str : string) (c : FindPlayerUrl.card) : bool :=
  match FindPlayerUrl.name_text c, FindPlayerUrl.link_href c with
  | Some _, Some href =>
      String.eqb (FindPlayerUrl.card_number c) jersey_str && negb (String.eqb href "")
  | _, _ => false
  end.

(** text of code points 0-127 *)
Definition ascii_text (s : string) : bool :=
  UrlParse.all_chars (fun c => Nat.ltb (nat_of_ascii c) 128) s.

Definition davis9_card : FindPlayerUrl.card :=
  {| FindPlayerUrl.name_text := Some "Charlie Davis";
     FindPlayerUrl.number_text := Some "9";
     FindPlayerUrl.link_href := Some "charlie-davis/9" |}.

(** a roster where a second "Charlie Davis" (#9) comes before #8 *)
Definition two_davis_fetch : string -> option FindPlayerUrl.roster_page :=
  fun _ => Some (fun _ => [davis9_card; davis_card]).

Definition belmont_cfg : Config.school_config :=
  {| Config.domain := "belmontbruins.com";
     Config.roster_url := "https://belmontbruins.com/sports/baseball/roster";
     Config.type := Some "sidearm" |}.

(** * Properties *)

Example detect_belmont_url :
  PlatformDetector.detect_platform "https://belmontbruins.com/sports/baseball" None = Ok "generic".
Proof. vm_compute. reflexivity. Qed.
Example detect_belmont_config : Config.detect_platform "belmontbruins.com" = "sidearm".
Proof. vm_compute. reflexivity. Qed.
Example detect_bare : PlatformDetector.detect_platform "belmontbruins.com" None = Ok "generic".
Proof. vm_compute. reflexivity. Qed.
Example detect_d3 : PlatformDetector.detect_platform "https://www.d3baseball.com/x" None = Ok "d3sports".
Proof. vm_compute. reflexivity. Qed.
Example detect_v6 : PlatformDetector.detect_platform "http://[x/y" None = Err InvalidIPv6URL.
Proof. vm_compute. reflexivity. Qed.
Example nm1 : FuzzyMatcher.names_match "Mike Smith" "M. Smith" = true.
Proof. vm_compute. reflexivity. Qed.
Example nm2 : FuzzyMatcher.names_match "Mike Smith" "Mike Jones" = false.
Proof. vm_compute. reflexivity. Qed.
Example nm3 : FuzzyMatcher.normalize_name "John A. Doe Jr." = "john doe".
Proof. vm_compute. reflexivity. Qed.
Example nm4 : FindPlayerUrl.normalize_name "  Charlie   Davis " = "charlie davis".
Proof. vm_compute. reflexivity. Qed.
Example nd1 : DataCleaner.normalize_date 2026 (Some "Feb 15, 2026") = Some "2026-02-15".
Proof. vm_compute. reflexivity. Qed.
Example nd2 : DataCleaner.normalize_date 2026 (Some "2/15/26") = Some "2026-02-15".
Proof. vm_compute. reflexivity. Qed.
Example nd3 : DataCleaner.normalize_date 2026 (Some "garbage") = Some "garbage".
Proof. vm_compute. reflexivity. Qed.
Example nd4 : DataCleaner.normalize_date 2024 (Some "feb 5") = Some "2024-02-05".
Proof. vm_compute. reflexivity. Qed.
Example nd5 : DataCleaner.normalize_date 2024 (Some "Feb 29") = Some "Feb 29".
Proof. vm_compute. reflexivity. Qed.
Example nd6 : DataCleaner.normalize_date 2024 (Some "02/14/2026") = Some "2026-02-14".
Proof. vm_compute. reflexivity. Qed.
Example cv1 : DataCleaner.clean_stat_value (Some "12") = Ok (DataCleaner.PyInt 12).
Proof. vm_compute. reflexivity. Qed.
Example cv2 : DataCleaner.clean_stat_value (Some "John Smith") = Ok (DataCleaner.PyFloat 0).
Proof. vm_compute. reflexivity. Qed.
Example cv3 : DataCleaner.clean_stat_value (Some ".350") = Ok (DataCleaner.PyFloat (Qmake 350 1000)).
Proof. vm_compute. reflexivity. Qed.

Section PlatformFacts.

Lemma prefix_app (a b s : string) :
  String.prefix (a ++ b) s = true -> String.prefix a s = true.
Proof.
  revert s; induction a as [|x a IH]; intros s H; [destruct s; reflexivity|].
  destruct s as [|y s]; [discriminate|].
  simpl in *. destruct (Ascii.ascii_dec x y); [apply IH; exact H | discriminate].
Qed.

Lemma contains_unfold (n h : string) :
  Py.contains n h = String.prefix n h ||
                    match h with EmptyString => false | String _ t => Py.contains n t end.
Proof. destruct h; reflexivity. Qed.

Lemma contains_app_l (a b hay : string) :
  Py.contains (a ++ b) hay = true -> Py.contains a hay = true.
Proof.
  induction hay as [|c hay IH]; rewrite !(contains_unfold _ (_ _)) || rewrite !contains_unfold;
    intro H; apply orb_true_iff in H as [H|H]; apply orb_true_iff.
  - left. exact (prefix_app a b _ H).
  - discriminate.
  - left. exact (prefix_app a b _ H).
  - right. exact (IH H).
Qed.




End PlatformFacts.

(** C3 (amended): [platform_detector.detect_platform] on a URL whose host is
    belmontbruins.com, whose HTML carries no vendor signature and whose path
    has no "/sidearmstats/" returns "generic"; the roster locator's
    [config.detect_platform("belmontbruins.com")] returns "sidearm"; both
    return "sidearm" when the host (resp. domain) contains
    "sidearmsports.com", whatever the HTML. *)
Theorem detect_platform_belmont_sidearmsports :
  (forall url html parsed,
      UrlParse.urlparse url = Ok parsed ->
      Py.lower (UrlParse.netloc parsed) = "belmontbruins.com" ->
      PlatformDetector.html_lookup html = None ->
      Py.contains "/sidearmstats/" (Py.lower (UrlParse.path parsed)) = false ->
      PlatformDetector.detect_platform url html = Ok "generic") /\
  Config.detect_platform "belmontbruins.com" = "sidearm" /\
  (forall url html parsed,
      UrlParse.urlparse url = Ok parsed ->
      Py.contains "sidearmsports.com" (Py.lower (UrlParse.netloc parsed)) = true ->
      PlatformDetector.detect_platform url html = Ok "sidearm") /\
  (forall domain,
      Py.contains "sidearmsports.com" (Py.lower domain) = true ->
      Config.detect_platform domain = "sidearm").
Proof.
  split; [|split; [|split]].
  - intros url html parsed Hp Hd Hh Hs.
    unfold PlatformDetector.detect_platform. rewrite Hp, Hd, Hh, Hs.
    destruct (Py.contains "/stats/" (Py.lower (UrlParse.path parsed)));
      vm_compute; reflexivity.
  - vm_compute. reflexivity.
  - intros url html parsed Hp Hd.
    unfold PlatformDetector.detect_platform. rewrite Hp.
    unfold PlatformDetector.PLATFORMS. cbn [PlatformDetector.domain_lookup existsb].
    rewrite Hd. reflexivity.
  - intros domain Hd.
    unfold Config.detect_platform, Config.PLATFORM_DOMAINS.
    cbn [Config.first_pattern existsb].
    rewrite (contains_app_l "sidearmsports" ".com" _ Hd).
    rewrite orb_true_r. reflexivity.
Qed.

Lemma detect_platform_belmont_sidearmsports_witness :
  PlatformDetector.detect_platform "https://belmontbruins.com/sports/baseball/roster" None
    = Ok "generic" /\
  PlatformDetector.detect_platform "https://goduke.sidearmsports.com/roster"
    (Some "<p>presto stats</p>") = Ok "sidearm" /\
  Config.detect_platform "SIDEARMSPORTS.COM" = "sidearm".
Proof.
  destruct detect_platform_belmont_sidearmsports as [H1 [_ [H3 H4]]].
  split; [|split].
  - eapply H1; vm_compute; reflexivity.
  - eapply H3; vm_compute; reflexivity.
  - apply H4; vm_compute; reflexivity.
Defined.

(** C3 (counterexample): the detection the roster locator uses,
    [config.detect_platform], maps "belmontbruins.com" to "sidearm", not
    "generic" (its pattern ".com" matches every .com domain). *)
Lemma detect_platform_belmont_not_generic :
  Config.detect_platform "belmontbruins.com" <> "generic".
Proof. vm_compute. discriminate. Qed.







Section CleanValue.
Import DataCleaner.

Lemma py_int_err s e : py_int s = Err e -> e = IntParseError.
Proof.
  unfold py_int. destruct (sign_split _) as [sg body].
  destruct (digits_value body 0 0) as [[v [|n]]|]; try congruence.
  destruct (Nat.leb _ _); congruence.
Qed.

Lemma py_float_err s e : py_float s = Err e -> e = FloatParseError.
Proof.
  unfold py_float. destruct (sign_split _) as [sg body].
  destruct (Py.split_once _ _) as [a b].
  destruct (digits_value a 0 0) as [[va na]|]; destruct (digits_value b 0 0) as [[vb nb]|];
    try congruence.
  destruct (Nat.eqb _ _); congruence.
Qed.

Lemma clean_stat_value_unfold s :
  s <> "" -> s <> "-" -> clean_stat_value (Some s) = clean_body s.
Proof.
  intros H1 H2. unfold clean_body.
  assert (E : clean_stat_value (Some s) =
    match (if Py.has_char "." (keep_numeric s)
           then match py_float (keep_numeric s) with Ok q => Ok (PyFloat q) | Err e => Err e end
           else match py_int (keep_numeric s) with Ok z => Ok (PyInt z) | Err e => Err e end)
    with
    | Ok n => Ok n
    | Err IntParseError | Err FloatParseError => Ok (PyFloat 0)
    | Err e => Err e
    end).
  { destruct s as [|c t]; [congruence|].
    destruct c as [[] [] [] [] [] [] [] []]; destruct t; try reflexivity; congruence. }
  rewrite E. destruct (Py.has_char _ _).
  - destruct (py_float _) as [q|e] eqn:F; [reflexivity|].
    apply py_float_err in F; subst; reflexivity.
  - destruct (py_int _) as [z|e] eqn:F; [reflexivity|].
    apply py_int_err in F; subst; reflexivity.
Qed.

Lemma keep_numeric_chars s : UrlParse.all_chars numeric_char (keep_numeric s) = true.
Proof.
  induction s as [|c t IH]; simpl; [reflexivity|].
  destruct (Py.is_digit c || Ascii.eqb c "." || Ascii.eqb c "-") eqn:E; simpl; [|exact IH].
  unfold numeric_char. rewrite E. exact IH.
Qed.

Section AllChars.
Variable p : ascii -> bool.

Lemma all_chars_lstrip s : UrlParse.all_chars p s = true -> UrlParse.all_chars p (Py.lstrip s) = true.
Proof.
  induction s as [|c t IH]; simpl; [auto|].
  intro H. apply andb_true_iff in H as [Hc Ht].
  destruct (Py.is_space c); [auto|simpl; rewrite Hc, Ht; reflexivity].
Qed.

Lemma all_chars_rev s acc :
  UrlParse.all_chars p s = true -> UrlParse.all_chars p acc = true ->
  UrlParse.all_chars p (Py.rev_str s acc) = true.
Proof.
  revert acc; induction s as [|c t IH]; simpl; intros acc Hs Ha; [exact Ha|].
  apply andb_true_iff in Hs as [Hc Ht]. apply IH; [exact Ht|simpl; rewrite Hc, Ha; reflexivity].
Qed.

Lemma all_chars_strip s : UrlParse.all_chars p s = true -> UrlParse.all_chars p (Py.strip s) = true.
Proof.
  intro H. unfold Py.strip, Py.rstrip. apply all_chars_rev; [|reflexivity].
  apply all_chars_lstrip, all_chars_rev; [|reflexivity]. apply all_chars_lstrip, H.
Qed.

Lemma all_chars_substring n m s :
  UrlParse.all_chars p s = true -> UrlParse.all_chars p (substring n m s) = true.
Proof.
  revert n m; induction s as [|c t IH]; intros [|n] [|m] H; simpl in *; auto.
  - apply andb_true_iff in H as [Hc Ht]. rewrite Hc. simpl. apply IH, Ht.
  - apply andb_true_iff in H as [_ Ht]. apply IH, Ht.
  - apply andb_true_iff in H as [_ Ht]. apply IH, Ht.
Qed.

Lemma all_chars_sign_split s :
  UrlParse.all_chars p s = true -> UrlParse.all_chars p (snd (sign_split s)) = true.
Proof.
  intro H. destruct s as [|c t]; [exact H|].
  unfold sign_split.
  destruct c as [[] [] [] [] [] [] [] []]; simpl in *; try exact H;
    apply andb_true_iff in H as [_ H]; exact H.
Qed.

End AllChars.

Lemma digits_value_no_digit s acc n v m :
  no_digit s = true -> digits_value s acc n = Some (v, m) -> m = n.
Proof.
  destruct s as [|c t]; simpl.
  - intros _ H. inversion H. reflexivity.
  - intro H. apply andb_true_iff in H as [Hc _].
    destruct (Py.is_digit c); [discriminate|]. discriminate.
Qed.

Lemma py_int_no_digit x : no_digit x = true -> py_int x = Err IntParseError.
Proof.
  intro H. unfold py_int.
  pose proof (all_chars_sign_split _ _ (all_chars_strip _ _ H)) as Hb.
  destruct (sign_split (Py.strip x)) as [sg body]. simpl in Hb.
  destruct (digits_value body 0 0) as [[v m]|] eqn:E; [|reflexivity].
  apply digits_value_no_digit in E; [subst; reflexivity|exact Hb].
Qed.

Lemma py_float_no_digit x : no_digit x = true -> py_float x = Err FloatParseError.
Proof.
  intro H. unfold py_float.
  pose proof (all_chars_sign_split _ _ (all_chars_strip _ _ H)) as Hb.
  destruct (sign_split (Py.strip x)) as [sg body]. simpl in Hb.
  unfold Py.split_once.
  destruct (Py.find_char "." body) as [i|].
  - destruct (digits_value (substring 0 i body) 0 0) as [[va na]|] eqn:Ea; [|reflexivity].
    destruct (digits_value (substring (S i) (length body) body) 0 0) as [[vb nb]|] eqn:Eb;
      [|reflexivity].
    apply digits_value_no_digit in Ea; [|apply all_chars_substring, Hb].
    apply digits_value_no_digit in Eb; [|apply all_chars_substring, Hb].
    subst. reflexivity.
  - destruct (digits_value body 0 0) as [[va na]|] eqn:Ea; [|reflexivity].
    apply digits_value_no_digit in Ea; [|exact Hb]. subst. reflexivity.
Qed.

Lemma keep_numeric_no_digit s : no_digit s = true -> no_digit (keep_numeric s) = true.
Proof.
  unfold no_digit. induction s as [|c t IH]; simpl; [auto|].
  intro H. apply andb_true_iff in H as [Hc Ht].
  destruct (_ || _ || _); simpl; [rewrite Hc|]; auto.
Qed.

(** A cell text without any digit cleans to 0.0. *)
Lemma clean_no_digit s : no_digit s = true -> clean_stat_value (Some s) = Ok (PyFloat 0).
Proof.
  intro H.
  destruct (string_dec s "") as [->|H1]; [reflexivity|].
  destruct (string_dec s "-") as [->|H2]; [reflexivity|].
  rewrite clean_stat_value_unfold by assumption. unfold clean_body.
  pose proof (keep_numeric_no_digit _ H) as Hk.
  destruct (Py.has_char _ _).
  - rewrite py_float_no_digit by exact Hk. reflexivity.
  - rewrite py_int_no_digit by exact Hk. reflexivity.
Qed.

Lemma clean_stat_value_ok v : exists n, clean_stat_value v = Ok n.
Proof.
  destruct v as [s|]; [|eexists; reflexivity].
  destruct (string_dec s "") as [->|H1]; [eexists; reflexivity|].
  destruct (string_dec s "-") as [->|H2]; [eexists; reflexivity|].
  rewrite clean_stat_value_unfold by assumption. unfold clean_body.
  destruct (Py.has_char _ _); [destruct (py_float _)|destruct (py_int _)]; eexists; reflexivity.
Qed.

End CleanValue.

(** C8: [clean_stat_value] never raises: on [None], "" and "-" it returns
    0.0; otherwise it keeps only digits, "." and "-", returns [float] of
    that text when it contains ".", [int] of it otherwise, and 0.0 when that
    conversion fails. *)
Theorem clean_stat_value_never_raises :
  forall v,
    (exists n, DataCleaner.clean_stat_value v = Ok n) /\
    (v = None \/ v = Some "" \/ v = Some "-" ->
       DataCleaner.clean_stat_value v = Ok (DataCleaner.PyFloat 0)) /\
    (forall s, v = Some s -> s <> "" -> s <> "-" ->
       let clean_val := DataCleaner.keep_numeric s in
       UrlParse.all_chars numeric_char clean_val = true /\
       DataCleaner.clean_stat_value v =
         if Py.has_char "." clean_val
         then match DataCleaner.py_float clean_val with
              | Ok q => Ok (DataCleaner.PyFloat q)
              | Err _ => Ok (DataCleaner.PyFloat 0)
              end
         else match DataCleaner.py_int clean_val with
              | Ok z => Ok (DataCleaner.PyInt z)
              | Err _ => Ok (DataCleaner.PyFloat 0)
              end).
Proof.
  intro v. split; [|split].
  - apply clean_stat_value_ok.
  - intros [->|[->| ->]]; reflexivity.
  - intros s -> H1 H2. split; [apply keep_numeric_chars|].
    rewrite clean_stat_value_unfold by assumption. reflexivity.
Qed.

Lemma clean_stat_value_never_raises_witness :
  DataCleaner.clean_stat_value (Some "-") = Ok (DataCleaner.PyFloat 0) /\
  DataCleaner.clean_stat_value (Some "1-2") = Ok (DataCleaner.PyFloat 0).
Proof.
  split.
  - apply (proj1 (proj2 (clean_stat_value_never_raises (Some "-")))). right; right; reflexivity.
  - destruct (proj2 (proj2 (clean_stat_value_never_raises (Some "1-2"))) "1-2")
      as [_ H]; [reflexivity|discriminate|discriminate|].
    rewrite H. vm_compute. reflexivity.
Defined.

Section BoxScoreFacts.
Import Html.

Lemma dict_set_in {A} k v k' v' (d : list (string * A)) :
  In (k, v) (dict_set k' v' d) -> (k = k' /\ v = v') \/ In (k, v) d.
Proof.
  induction d as [|[k0 v0] d IH]; simpl.
  - intros [H|[]]. inversion H; auto.
  - destruct (String.eqb k' k0) eqn:E.
    + apply String.eqb_eq in E; subst. intros [H|H]; [inversion H; auto|auto].
    + intros [H|H]; [auto|]. destruct (IH H) as [?|?]; auto.
Qed.

Lemma zip_into_in {A B} (f : B -> A) hs cs d k v :
  In (k, v) (zip_into f hs cs d) ->
  In (k, v) d \/ exists c, In k hs /\ In c cs /\ v = f c.
Proof.
  revert cs d; induction hs as [|h hs IH]; intros [|c cs] d; simpl; auto.
  intro H. destruct (IH cs _ H) as [H'|[c' [Hk [Hc Hv]]]].
  - destruct (dict_set_in _ _ _ _ _ H') as [[-> ->]|H'']; [right; exists c; auto|auto].
  - right. exists c'. auto.
Qed.

End BoxScoreFacts.

(** C10 (amended): every value of every record that [parse_box_score]
    returns is a number: it is [clean_stat_value] of the stripped text of a
    cell of an accepted row, under a lowercased header of that table; a cell
    whose text has no digit at all (a plain player name) becomes 0.0. *)
Theorem parse_box_score_numeric :
  (forall tables platform r k v,
      In r (BoxScore.parse_box_score tables platform) -> In (k, v) r ->
      (exists n, v = Ok n) /\
      exists t row c, In t tables /\ In row (Html.data_rows t) /\ In c row /\
        In k (map Py.lower (Html.th_texts t)) /\
        v = DataCleaner.clean_stat_value (Some (Py.strip (Html.cell_text c)))) /\
  (forall s, no_digit s = true ->
      DataCleaner.clean_stat_value (Some s) = Ok (DataCleaner.PyFloat 0)).
Proof.
  split; [|exact clean_no_digit].
  intros tables platform r k v Hr Hkv.
  unfold BoxScore.parse_box_score in Hr.
  apply in_flat_map in Hr as [t [Ht Hr]].
  destruct (existsb _ _); [|contradiction].
  apply in_flat_map in Hr as [row [Hrow Hr]].
  destruct (Nat.leb 2 _); [|contradiction].
  destruct (Html.zip_into _ _ _ _) as [|p ps] eqn:Ez; [contradiction|].
  destruct Hr as [Hr|[]]. subst r. rewrite <- Ez in Hkv.
  apply zip_into_in in Hkv as [[]|[c [Hk [Hc ->]]]].
  split; [apply clean_stat_value_ok|].
  exists t, row, c. repeat split; auto.
  assert (Hs : forall t', In t' (BoxScore.select_tables platform tables) -> In t' tables).
  { unfold BoxScore.select_tables. intro t'.
    destruct (String.eqb platform "sidearm"); [intro H; apply filter_In in H; tauto|].
    destruct (String.eqb platform "presto"); [intro H; apply filter_In in H; tauto|auto]. }
  exact (Hs t Ht).
Qed.

Lemma parse_box_score_numeric_witness :
  DataCleaner.clean_stat_value (Some "Jones, Mike") = Ok (DataCleaner.PyFloat 0) /\
  exists n, In ("player", n) (hd [] (BoxScore.parse_box_score [box_table_pos] "generic")).
Proof.
  split.
  - apply (proj2 parse_box_score_numeric). vm_compute. reflexivity.
  - destruct (proj1 parse_box_score_numeric [box_table_pos] "generic"
                (hd [] (BoxScore.parse_box_score [box_table_pos] "generic"))
                "player" (Ok (DataCleaner.PyInt 2))) as [[n Hn] _].
    + vm_compute. left. reflexivity.
    + vm_compute. left. reflexivity.
    + exists (Ok n). rewrite <- Hn. vm_compute. left. reflexivity.
Defined.

(** C10 (counterexample): a player-name cell carrying a position with a
    digit, "Smith, John 2b", is coerced to the integer 2, not to 0.0. *)
Lemma parse_box_score_name_with_digit :
  BoxScore.parse_box_score [box_table_pos] "generic" =
    [[("player", Ok (DataCleaner.PyInt 2)); ("ab", Ok (DataCleaner.PyInt 4));
      ("h", Ok (DataCleaner.PyInt 2))]] /\
  Ok (DataCleaner.PyInt 2) <> Ok (DataCleaner.PyFloat 0).
Proof. split; [vm_compute; reflexivity|discriminate]. Qed.

Section NormalizeDate.
Import DataCleaner.

Lemma strptime_valid s fmt y m d :
  strptime s fmt = Some (y, m, d) -> valid_date y m d = true.
Proof.
  unfold strptime. destruct (filter _ _) as [|[f rest] l]; [discriminate|].
  destruct (valid_date _ _ _) eqn:E; [|discriminate].
  intro H. inversion H; subst. exact E.
Qed.

Lemma try_formats_iso cy s fs iso :
  try_formats cy s fs = Some iso ->
  exists y m d, valid_date y m d = true /\ iso = isoformat y m d.
Proof.
  induction fs as [|fmt fs IH]; simpl; [discriminate|].
  destruct (strptime s fmt) as [[[y m] d]|] eqn:E; [|exact IH].
  destruct (is_fmt_b_d fmt).
  - destruct (valid_date cy m d) eqn:V; [|exact IH].
    intro H; inversion H; subst. exists cy, m, d. auto.
  - intro H; inversion H; subst. exists y, m, d. split; [|reflexivity].
    exact (strptime_valid _ _ _ _ _ E).
Qed.

End NormalizeDate.

(** C7 (amended): [normalize_date] returns [None] on [None] and on the empty
    string; on any other string it returns the ISO rendering of a valid date
    given by the first of the four formats that [strptime] accepts ("Mon D"
    taking the current year), and the string itself when none accepts it.
    "Feb 15, 2026" and "2/15/26" give "2026-02-15", "garbage" gives
    "garbage". *)
Theorem normalize_date_formats :
  (forall cy, DataCleaner.normalize_date cy None = None /\
              DataCleaner.normalize_date cy (Some "") = None) /\
  (forall cy s, s <> "" -> DataCleaner.try_formats cy s DataCleaner.formats = None ->
      DataCleaner.normalize_date cy (Some s) = Some s) /\
  (forall cy s iso, s <> "" -> DataCleaner.try_formats cy s DataCleaner.formats = Some iso ->
      DataCleaner.normalize_date cy (Some s) = Some iso /\
      exists y m d, DataCleaner.valid_date y m d = true /\ iso = DataCleaner.isoformat y m d) /\
  (forall cy, DataCleaner.normalize_date cy (Some "Feb 15, 2026") = Some "2026-02-15" /\
              DataCleaner.normalize_date cy (Some "2/15/26") = Some "2026-02-15" /\
              DataCleaner.normalize_date cy (Some "garbage") = Some "garbage") /\
  (forall cy, (1 <= cy <= 9999)%Z ->
      DataCleaner.normalize_date cy (Some "Feb 15") = Some (DataCleaner.isoformat cy 2 15)).
Proof.
  split; [|split; [|split; [|split]]].
  - intro cy. split; reflexivity.
  - intros cy s H1 H2. unfold DataCleaner.normalize_date.
    destruct s as [|c t]; [congruence|]. rewrite H2. reflexivity.
  - intros cy s iso H1 H2. split.
    + unfold DataCleaner.normalize_date.
      destruct s as [|c t]; [congruence|]. rewrite H2. reflexivity.
    + exact (try_formats_iso _ _ _ _ H2).
  - intro cy. split; [|split]; vm_compute; reflexivity.
  - intros cy [H1 H2].
    assert (V : DataCleaner.valid_date cy 2 15 = true).
    { unfold DataCleaner.valid_date, DataCleaner.days_in_month.
      apply Z.leb_le in H1. apply Z.leb_le in H2. rewrite H1, H2.
      destruct (DataCleaner.is_leap cy); reflexivity. }
    assert (E : DataCleaner.try_formats cy "Feb 15" DataCleaner.formats =
                if DataCleaner.valid_date cy 2 15
                then Some (DataCleaner.isoformat cy 2 15)
                else DataCleaner.try_formats cy "Feb 15"
                       [DataCleaner.FMT_m_d_y; DataCleaner.FMT_m_d_Y]) by reflexivity.
    unfold DataCleaner.normalize_date. rewrite E, V. reflexivity.
Qed.

Lemma normalize_date_formats_witness :
  DataCleaner.normalize_date 2026 (Some "Feb 30") = Some "Feb 30" /\
  DataCleaner.normalize_date 2026 (Some "12/31/1999") = Some "1999-12-31" /\
  DataCleaner.normalize_date 2027 (Some "Feb 15") = Some "2027-02-15".
Proof.
  destruct normalize_date_formats as [_ [H2 [H3 [_ H5]]]].
  split; [|split].
  - apply H2; [discriminate|vm_compute; reflexivity].
  - apply (proj1 (H3 2026%Z "12/31/1999" "1999-12-31" ltac:(discriminate)
                      ltac:(vm_compute; reflexivity))).
  - apply (H5 2027%Z); lia.
Defined.

(** C7 (counterexample): the empty string matches none of the formats, yet
    [normalize_date("")] returns [None], not "". *)
Lemma normalize_date_empty_not_unchanged :
  ~ (forall s, DataCleaner.try_formats 2026 s DataCleaner.formats = None ->
               DataCleaner.normalize_date 2026 (Some s) = Some s).
Proof.
  intro H. specialize (H "" eq_refl). discriminate H.
Qed.

Section RosterLocator.
Import FindPlayerUrl.

Lemma search_some cfg pt np js cards u p :
  search cfg pt np js cards = Some (u, p) ->
  p = pt /\ exists c raw href, In c cards /\ name_text c = Some raw /\
    name_match np (normalize_name raw) = true /\ card_number c = js /\
    link_href c = Some href /\ href <> "" /\ u = absolute_url cfg href.
Proof.
  induction cards as [|c cards IH]; simpl; [discriminate|].
  destruct (name_text c) as [raw|] eqn:En.
  2:{ intro H. destruct (IH H) as [Hp [c' [raw' [h' [Hin R]]]]].
      split; [exact Hp|]. exists c', raw', h'. auto. }
  destruct (name_match np (normalize_name raw) && String.eqb js (card_number c)) eqn:Em.
  2:{ intro H. destruct (IH H) as [Hp [c' [raw' [h' [Hin R]]]]].
      split; [exact Hp|]. exists c', raw', h'. auto. }
  apply andb_true_iff in Em as [Hm Hj]. apply String.eqb_eq in Hj.
  destruct (link_href c) as [[|a h]|] eqn:El.
  1,3: intro H; destruct (IH H) as [Hp [c' [raw' [h' [Hin R]]]]];
       split; [exact Hp|]; exists c', raw', h'; auto.
  intro H. inversion H; subst. split; [reflexivity|].
  exists c, raw, (String a h). repeat split; auto. discriminate.
Qed.

Lemma search_none cfg pt np js cards :
  search cfg pt np js cards = None ->
  forall c, In c cards -> forall raw, name_text c = Some raw ->
    name_match np (normalize_name raw) = true -> card_number c = js ->
    forall href, link_href c = Some href -> href = "".
Proof.
  induction cards as [|c0 cards IH]; simpl; [intros _ c []|].
  intros H c Hin raw Hn Hm Hj href Hl.
  destruct Hin as [<-|Hin].
  - rewrite Hn in H. rewrite Hm, Hj, String.eqb_refl in H. simpl in H.
    rewrite Hl in H. destruct href; [reflexivity|discriminate].
  - destruct (name_text c0) as [raw0|]; [|exact (IH H c Hin raw Hn Hm Hj href Hl)].
    destruct (_ && _); [|exact (IH H c Hin raw Hn Hm Hj href Hl)].
    destruct (link_href c0) as [[|a h]|]; try discriminate;
      exact (IH H c Hin raw Hn Hm Hj href Hl).
Qed.

Lemma search_cons cfg pt np js c rest :
  search cfg pt np js (c :: rest) =
  if card_qualifies np js c then
    match link_href c with Some h => Some (absolute_url cfg h, pt) | None => None end
  else search cfg pt np js rest.
Proof.
  simpl. unfold card_qualifies.
  destruct (name_text c) as [raw|]; [|destruct (link_href c); reflexivity].
  rewrite (String.eqb_sym (card_number c) js).
  destruct (name_match _ _ && String.eqb js _);
    destruct (link_href c) as [[|a h]|]; reflexivity.
Qed.

Lemma search_skip cfg pt np js before rest :
  none_qualifies np js before = true ->
  search cfg pt np js (before ++ rest) = search cfg pt np js rest.
Proof.
  induction before as [|c before IH]; [reflexivity|].
  unfold none_qualifies. cbn [forallb app]. intro H. apply andb_true_iff in H as [Hc Hb].
  apply negb_true_iff in Hc. rewrite search_cons, Hc. exact (IH Hb).
Qed.

Lemma search_first cfg pt np js before c after href :
  none_qualifies np js before = true -> card_qualifies np js c = true ->
  link_href c = Some href ->
  search cfg pt np js (before ++ c :: after) = Some (absolute_url cfg href, pt).
Proof.
  intros Hb Hc Hl. rewrite (search_skip _ _ _ _ _ _ Hb), search_cons, Hc, Hl.
  reflexivity.
Qed.

Lemma search_nothing cfg pt np js cards :
  none_qualifies np js cards = true -> search cfg pt np js cards = None.
Proof.
  intro H. rewrite <- (app_nil_r cards), (search_skip _ _ _ _ _ _ H). reflexivity.
Qed.

Lemma search_some_first cfg pt np js cards u p :
  search cfg pt np js cards = Some (u, p) ->
  p = pt /\ exists before c after href,
    cards = (before ++ c :: after)%list /\ none_qualifies np js before = true /\
    card_qualifies np js c = true /\ link_href c = Some href /\
    u = absolute_url cfg href.
Proof.
  induction cards as [|c cards IH]; [discriminate|].
  rewrite search_cons. destruct (card_qualifies np js c) eqn:Hc.
  - destruct (link_href c) as [h|] eqn:Hl; [|discriminate].
    intro H. inversion H; subst. split; [reflexivity|].
    exists [], c, cards, h. repeat split; auto.
  - intro H. destruct (IH H) as [Hp [b [c' [a [h (-> & Hb & R)]]]]].
    split; [exact Hp|]. exists (c :: b), c', a, h. split; [reflexivity|].
    split; [|exact R]. unfold none_qualifies. cbn [forallb]. rewrite Hc. exact Hb.
Qed.

Lemma find_player_url_in_eq schools fetch name j school cfg page :
  Config.lookup school schools = Some cfg -> fetch (Config.roster_url cfg) = Some page ->
  find_player_url_in schools fetch name j school =
  match page (selectors_key (roster_platform cfg)) with
  | [] => Err NoPlayersOnRoster
  | _ =>
      match search cfg (roster_platform cfg) (normalize_name name) (Py.strip j)
                   (page (selectors_key (roster_platform cfg))) with
      | Some m => Ok m
      | None => Err (PlayerNotFound (List.length (page (selectors_key (roster_platform cfg)))))
      end
  end.
Proof. intros Hl Hf. unfold find_player_url_in. rewrite Hl, Hf. reflexivity. Qed.

Lemma find_player_url_in_first schools fetch name j school cfg page before c after href :
  Config.lookup school schools = Some cfg -> fetch (Config.roster_url cfg) = Some page ->
  page (selectors_key (roster_platform cfg)) = (before ++ c :: after)%list ->
  none_qualifies (normalize_name name) (Py.strip j) before = true ->
  card_qualifies (normalize_name name) (Py.strip j) c = true ->
  link_href c = Some href ->
  find_player_url_in schools fetch name j school = Ok (absolute_url cfg href, roster_platform cfg).
Proof.
  intros Hl Hf Hp Hb Hc Hh. rewrite (find_player_url_in_eq _ _ _ _ _ _ _ Hl Hf), Hp.
  rewrite (search_first _ _ _ _ _ _ _ _ Hb Hc Hh). destruct before; reflexivity.
Qed.

Lemma find_player_url_in_none schools fetch name j school cfg page :
  Config.lookup school schools = Some cfg -> fetch (Config.roster_url cfg) = Some page ->
  none_qualifies (normalize_name name) (Py.strip j)
                 (page (selectors_key (roster_platform cfg))) = true ->
  find_player_url_in schools fetch name j school =
    Err (match page (selectors_key (roster_platform cfg)) with
         | [] => NoPlayersOnRoster
         | cards => PlayerNotFound (List.length cards)
         end).
Proof.
  intros Hl Hf Hn. rewrite (find_player_url_in_eq _ _ _ _ _ _ _ Hl Hf).
  rewrite (search_nothing _ _ _ _ _ Hn).
  destruct (page (selectors_key (roster_platform cfg))); reflexivity.
Qed.

Lemma find_player_url_in_ok schools fetch name j school url p :
  find_player_url_in schools fetch name j school = Ok (url, p) ->
  exists cfg page before c after href,
    Config.lookup school schools = Some cfg /\
    fetch (Config.roster_url cfg) = Some page /\
    p = roster_platform cfg /\
    page (selectors_key p) = (before ++ c :: after)%list /\
    none_qualifies (normalize_name name) (Py.strip j) before = true /\
    card_qualifies (normalize_name name) (Py.strip j) c = true /\
    link_href c = Some href /\ url = absolute_url cfg href.
Proof.
  intro H.
  destruct (Config.lookup school schools) as [cfg|] eqn:Hl;
    [|unfold find_player_url_in in H; rewrite Hl in H; discriminate].
  destruct (fetch (Config.roster_url cfg)) as [page|] eqn:Hf;
    [|unfold find_player_url_in in H; rewrite Hl, Hf in H; discriminate].
  rewrite (find_player_url_in_eq _ _ _ _ _ _ _ Hl Hf) in H.
  destruct (page (selectors_key (roster_platform cfg))) as [|c0 cs] eqn:Hp; [discriminate|].
  rewrite <- Hp in H.
  destruct (search _ _ _ _ _) as [[u q]|] eqn:Es; [|discriminate].
  inversion H; subst u q. clear H.
  destruct (search_some_first _ _ _ _ _ _ _ Es) as [-> [b [c [a [h (Hc & R)]]]]].
  exists cfg, page, b, c, a, h. rewrite Hp in Hc |- *. rewrite Hc. tauto.
Qed.

End RosterLocator.

(** C1 (amended): the roster locator returns a URL and the platform id only
    for the first card of the configured school's roster page that
    qualifies: a name element whose lowercased, whitespace-collapsed text
    and the query's are substrings one of the other (not [names_match]), a
    trimmed jersey text equal to the trimmed query jersey, and a non-empty
    link; the URL is that link made absolute and the platform is the one
    computed from the school's config.  Conversely the first qualifying card
    is returned, and when no card qualifies it fails with the no-players
    error on an empty roster and otherwise with the not-found error counting
    the cards scanned. *)
Theorem find_player_url_name_and_number :
  forall schools fetch player_name jersey_number school,
    (forall url p,
        FindPlayerUrl.find_player_url_in schools fetch player_name jersey_number school
          = Ok (url, p) ->
        exists cfg page before c after href,
          Config.lookup school schools = Some cfg /\
          fetch (Config.roster_url cfg) = Some page /\
          p = roster_platform cfg /\
          page (FindPlayerUrl.selectors_key p) = (before ++ c :: after)%list /\
          none_qualifies (FindPlayerUrl.normalize_name player_name)
                         (Py.strip jersey_number) before = true /\
          card_qualifies (FindPlayerUrl.normalize_name player_name)
                         (Py.strip jersey_number) c = true /\
          FindPlayerUrl.link_href c = Some href /\
          url = FindPlayerUrl.absolute_url cfg href) /\
    (forall cfg page,
        Config.lookup school schools = Some cfg ->
        fetch (Config.roster_url cfg) = Some page ->
        (forall before c after href,
            page (FindPlayerUrl.selectors_key (roster_platform cfg))
              = (before ++ c :: after)%list ->
            none_qualifies (FindPlayerUrl.normalize_name player_name)
                           (Py.strip jersey_number) before = true ->
            card_qualifies (FindPlayerUrl.normalize_name player_name)
                           (Py.strip jersey_number) c = true ->
            FindPlayerUrl.link_href c = Some href ->
            FindPlayerUrl.find_player_url_in schools fetch player_name jersey_number school
              = Ok (FindPlayerUrl.absolute_url cfg href, roster_platform cfg)) /\
        (none_qualifies (FindPlayerUrl.normalize_name player_name) (Py.strip jersey_number)
                        (page (FindPlayerUrl.selectors_key (roster_platform cfg))) = true ->
         FindPlayerUrl.find_player_url_in schools fetch player_name jersey_number school
           = Err (match page (FindPlayerUrl.selectors_key (roster_platform cfg)) with
                  | [] => NoPlayersOnRoster
                  | cards => PlayerNotFound (List.length cards)
                  end))).
Proof.
  intros schools fetch name j school. split.
  - intros url p H. exact (find_player_url_in_ok _ _ _ _ _ _ _ H).
  - intros cfg page Hl Hf. split.
    + intros before c after href Hp Hb Hc Hh.
      exact (find_player_url_in_first _ _ _ _ _ _ _ _ _ _ _ Hl Hf Hp Hb Hc Hh).
    + exact (find_player_url_in_none _ _ _ _ _ _ _ Hl Hf).
Qed.

Lemma find_player_url_name_and_number_witness :
  (exists before c after href,
      [davis9_card; davis_card] = (before ++ c :: after)%list /\
      none_qualifies "charlie davis" "8" before = true /\
      card_qualifies "charlie davis" "8" c = true /\
      FindPlayerUrl.link_href c = Some href) /\
  FindPlayerUrl.find_player_url_in Config.SCHOOLS two_davis_fetch "Charlie Davis" "8" "Belmont"
    = Ok ("https://belmontbruins.com/sports/baseball/charlie-davis/2", "sidearm") /\
  FindPlayerUrl.find_player_url_in Config.SCHOOLS two_davis_fetch "Charlie Davis" "7" "Belmont"
    = Err (PlayerNotFound 2).
Proof.
  split; [|split].
  - destruct (proj1 (find_player_url_name_and_number Config.SCHOOLS two_davis_fetch
                        "Charlie Davis" "8" "Belmont")
                "https://belmontbruins.com/sports/baseball/charlie-davis/2" "sidearm")
      as [cfg [page [b [c [a [h (Hl & Hf & Hp & Hpg & Hb & Hc & Hh & _)]]]]]];
      [vm_compute; reflexivity|].
    inversion Hf; subst page. exists b, c, a, h. rewrite Hpg. auto.
  - exact (proj1 (proj2 (find_player_url_name_and_number Config.SCHOOLS two_davis_fetch
                           "Charlie Davis" "8" "Belmont") belmont_cfg
                    (fun _ => [davis9_card; davis_card]) eq_refl eq_refl)
                 [davis9_card] davis_card [] "charlie-davis/2" eq_refl eq_refl eq_refl eq_refl).
  - exact (proj2 (proj2 (find_player_url_name_and_number Config.SCHOOLS two_davis_fetch
                           "Charlie Davis" "7" "Belmont") belmont_cfg
                    (fun _ => [davis9_card; davis_card]) eq_refl eq_refl) eq_refl).
Defined.

(** C1 (counterexample): with a Belmont roster holding only the card
    "Charlie Davison" #8, the query "Charlie Davis" #8 is resolved to that
    card although [names_match] rejects the two names. *)
Lemma find_player_url_accepts_substring_name :
  FindPlayerUrl.find_player_url davison_fetch "Charlie Davis" "8" "Belmont" =
    Ok ("https://belmontbruins.com/sports/baseball/roster/charlie-davison/1", "sidearm") /\
  FuzzyMatcher.names_match "Charlie Davis" "Charlie Davison" = false.
Proof. split; vm_compute; reflexivity. Qed.

(** C2 (code bug): the sidearm path emits only rows with at least 3 cells
    whose Date is non-empty and free of "Total"; the generic parser, used for
    every platform other than sidearm/prestosports and as the fallback when
    the sidearm path raises, has no such filter and emits the season-total
    row of the spec's own example table. *)
Theorem parse_game_log_total_row :
  (forall tables g, In g (ParseGameLog.sidearm_tables tables) ->
     exists d, Html.dict_get "Date" g = Some d /\ d <> "" /\ Py.contains "Total" d = false) /\
  ParseGameLog.parse_game_log (game_driver true) "https://belmontbruins.com/p" "sidearm"
    = Ok [georgia_state_row] /\
  ParseGameLog.parse_game_log (game_driver true) "https://belmontbruins.com/p" "generic"
    = Ok [total_row; georgia_state_row] /\
  ParseGameLog.parse_game_log (game_driver false) "https://belmontbruins.com/p" "sidearm"
    = Ok [total_row; georgia_state_row].
Proof.
  split; [|split; [|split]]; [|vm_compute; reflexivity ..].
  intros tables g H. unfold ParseGameLog.sidearm_tables in H.
  apply in_flat_map in H as [t [_ H]].
  destruct (_ && _); [|contradiction].
  unfold ParseGameLog.sidearm_rows in H.
  apply in_flat_map in H as [row [_ H]].
  destruct (Nat.ltb _ _); [contradiction|].
  destruct (ParseGameLog.truthy _ && _) eqn:E; [|contradiction].
  destruct H as [<-|[]].
  apply andb_true_iff in E as [Ht Hn]. apply negb_true_iff in Hn.
  unfold ParseGameLog.truthy in Ht.
  destruct (Html.dict_get "Date" _) as [[|a d]|]; try discriminate.
  eexists; split; [reflexivity|]. split; [discriminate|exact Hn].
Qed.

Lemma parse_game_log_total_row_witness :
  exists d, Html.dict_get "Date" georgia_state_row = Some d /\ d <> "" /\
            Py.contains "Total" d = false.
Proof.
  apply (proj1 parse_game_log_total_row [spec_game_table]). vm_compute. left. reflexivity.
Defined.

(** C5: if the platform path raises on a platform other than "generic",
    [parse_game_log] runs the generic parser; it raises its extraction
    failure only when the platform path raised and (the platform is
    "generic" or) the generic parser raised too. *)
Theorem parse_game_log_fallback :
  forall drv player_url platform_type,
    (forall e, ParseGameLog.parse_game_log drv player_url platform_type = Err (GameLogFailed e) ->
       ParseGameLog.setup_ok drv = true /\
       ParseGameLog.platform_path drv player_url platform_type = Err e /\
       (platform_type = "generic" \/
        exists e', ParseGameLog.parse_generic_game_log drv player_url = Err e')) /\
    (ParseGameLog.setup_ok drv = true -> ParseGameLog.quit_ok drv = true ->
     forall e, ParseGameLog.platform_path drv player_url platform_type = Err e ->
     platform_type <> "generic" ->
     ParseGameLog.parse_game_log drv player_url platform_type =
       match ParseGameLog.parse_generic_game_log drv player_url with
       | Ok game_log => Ok game_log
       | Err _ => Err (GameLogFailed e)
       end).
Proof.
  intros drv player_url platform_type. unfold ParseGameLog.parse_game_log. split.
  - intros e. destruct (ParseGameLog.setup_ok drv); [|discriminate].
    destruct (ParseGameLog.quit_ok drv); [|discriminate].
    destruct (ParseGameLog.platform_path _ _ _) as [l|e0]; [discriminate|].
    destruct (String.eqb platform_type "generic") eqn:G; simpl.
    + intro H. inversion H; subst. apply String.eqb_eq in G. auto.
    + destruct (ParseGameLog.parse_generic_game_log _ _) as [l|e1]; [discriminate|].
      intro H. inversion H; subst. eauto.
  - intros Hs Hq e He Hg. rewrite Hs, Hq, He. simpl.
    apply String.eqb_neq in Hg. rewrite Hg. reflexivity.
Qed.

Lemma parse_game_log_fallback_witness :
  ParseGameLog.parse_game_log (game_driver false) "https://belmontbruins.com/p" "sidearm" =
    Ok [total_row; georgia_state_row].
Proof.
  rewrite (proj2 (parse_game_log_fallback (game_driver false) "https://belmontbruins.com/p"
                    "sidearm") eq_refl eq_refl StatsTabMissing
                  ltac:(vm_compute; reflexivity) ltac:(discriminate)).
  vm_compute. reflexivity.
Defined.

Section Semaphore.
Import AsyncScraper.
Local Open Scope list_scope.

Lemma filter_len_app (f : task_state -> bool) l1 l2 :
  List.length (filter f (l1 ++ l2)) = List.length (filter f l1) + List.length (filter f l2).
Proof. rewrite filter_app, length_app. reflexivity. Qed.

Lemma set_task_split ts i x y :
  nth_error ts i = Some x ->
  exists l1 l2, ts = l1 ++ x :: l2 /\ set_task ts i y = l1 ++ y :: l2 /\ List.length l1 = i.
Proof.
  intro H. destruct (nth_error_split ts i H) as [l1 [l2 [-> Hl]]].
  exists l1, l2. split; [reflexivity|]. split; [|exact Hl].
  unfold set_task. subst i.
  rewrite firstn_app, Nat.sub_diag, firstn_all, app_nil_r.
  rewrite skipn_app. replace (S (List.length l1) - List.length l1) with 1 by lia.
  rewrite skipn_all2 by lia. reflexivity.
Qed.

Lemma in_flight_set ts i x y :
  nth_error ts i = Some x ->
  List.length (filter is_in_body (set_task ts i y)) + (if is_in_body x then 1 else 0) =
  List.length (filter is_in_body ts) + (if is_in_body y then 1 else 0).
Proof.
  intro H. destruct (set_task_split ts i x y H) as [l1 [l2 [-> [-> _]]]].
  rewrite !filter_len_app. simpl.
  destruct (is_in_body x), (is_in_body y); simpl; lia.
Qed.

(** the semaphore invariant: value + tasks inside the block = limit *)
Lemma semaphore_invariant {A} (players : list A) (n : nat) s :
  reachable (scrape_batch players n) s -> sem_value s + in_flight s = n.
Proof.
  induction 1 as [|s s' _ IH Hs].
  - unfold in_flight; simpl. induction players as [|p ps IHp]; simpl; [lia|exact IHp].
  - unfold in_flight in *. inversion Hs as [s0 i Hi Hv Heq | s0 i Hi Heq]; subst; simpl.
    + pose proof (in_flight_set _ _ _ InBody Hi) as E. simpl in E. lia.
    + pose proof (in_flight_set _ _ _ Finished Hi) as E. simpl in E. lia.
Qed.

Lemma app_pivot_len (l1 l1' l2 l2' : list task_state) x x' :
  List.length l1 = List.length l1' -> l1 ++ x :: l2 = l1' ++ x' :: l2' -> l1 = l1' /\ l2 = l2'.
Proof.
  revert l1'; induction l1 as [|a l1 IH]; intros [|b l1'] Hl H; simpl in *; try discriminate.
  - inversion H; auto.
  - inversion H; subst. destruct (IH l1' ltac:(lia) H2) as [-> ->]. auto.
Qed.

Lemma repeat_snoc (x : task_state) k rest :
  repeat x (S k) ++ rest = repeat x k ++ x :: rest.
Proof. induction k as [|k IH]; simpl; [reflexivity|]. f_equal. exact IH. Qed.

Lemma acquire_prefix (m v k : nat) :
  k <= v -> k <= m ->
  reachable (init v (repeat tt m))
            {| sem_value := v - k; tasks := repeat InBody k ++ repeat Waiting (m - k) |}.
Proof.
  induction k as [|k IH]; intros Hv Hm.
  - assert (E : init v (repeat tt m) =
                {| sem_value := v - 0; tasks := repeat InBody 0 ++ repeat Waiting (m - 0) |}).
    { unfold init. rewrite Nat.sub_0_r. simpl. f_equal.
      rewrite Nat.sub_0_r. clear. induction m; simpl; [reflexivity|]. f_equal. exact IHm. }
    rewrite E. constructor.
  - eapply reach_step; [apply IH; lia|].
    assert (Ew : repeat Waiting (m - k) = Waiting :: repeat Waiting (m - S k)).
    { replace (m - k) with (S (m - S k)) by lia. reflexivity. }
    assert (Hn : nth_error (repeat InBody k ++ repeat Waiting (m - k)) k = Some Waiting).
    { rewrite Ew, nth_error_app2; rewrite repeat_length; [|lia].
      rewrite Nat.sub_diag. reflexivity. }
    assert (Hpos : 0 < sem_value {| sem_value := v - k;
                                    tasks := repeat InBody k ++ repeat Waiting (m - k) |}).
    { cbn [sem_value]. lia. }
    pose proof (step_acquire {| sem_value := v - k;
                                tasks := repeat InBody k ++ repeat Waiting (m - k) |}
                             k Hn Hpos) as Hst.
    simpl in Hst. destruct (set_task_split _ _ _ InBody Hn) as [l1 [l2 [E1 [E2 Hl]]]].
    rewrite E2 in Hst. rewrite Ew in E1.
    assert (Hlen : List.length (repeat InBody k) = List.length l1)
      by (rewrite repeat_length; lia).
    destruct (app_pivot_len _ _ _ _ _ _ Hlen E1) as [<- <-].
    replace (v - S k) with (pred (v - k)) by lia.
    rewrite repeat_snoc. exact Hst.
Qed.

End Semaphore.

(** C9 (amended): [scrape_batch(players, max_concurrent)] never has more
    than [max_concurrent] tasks inside its semaphore block, in any
    interleaving; its only caller [run_async_scrape] always passes the
    default 10 (no configuration is read). *)
Theorem scrape_batch_bounded :
  (forall A (players : list A) max_concurrent s,
      AsyncScraper.reachable (AsyncScraper.scrape_batch players max_concurrent) s ->
      (AsyncScraper.in_flight s <= max_concurrent)%nat) /\
  (forall A (players : list A),
      AsyncScraper.run_async_scrape players = AsyncScraper.scrape_batch players 10).
Proof.
  split; [|reflexivity].
  intros A players n s H. pose proof (semaphore_invariant players n s H). lia.
Qed.

Lemma scrape_batch_bounded_witness :
  (AsyncScraper.in_flight
    {| AsyncScraper.sem_value := 0;
       AsyncScraper.tasks := repeat AsyncScraper.InBody 5 ++
                             repeat AsyncScraper.Waiting 15 |} <= 5)%nat.
Proof.
  apply (proj1 scrape_batch_bounded unit (repeat tt 20) 5).
  pose proof (acquire_prefix 20 5 5 ltac:(lia) ltac:(lia)) as H. exact H.
Defined.

(** C9 (counterexample): for a batch of 20 players the entry point
    [run_async_scrape] lets 10 tasks into the block at once, more than a
    configured limit of 5: the limit is the literal default 10. *)
Lemma run_async_scrape_ten_in_flight :
  exists s, AsyncScraper.reachable (AsyncScraper.run_async_scrape (repeat tt 20)) s /\
            (5 < AsyncScraper.in_flight s)%nat.
Proof.
  eexists. split.
  - exact (acquire_prefix 20 10 10 ltac:(lia) ltac:(lia)).
  - vm_compute. lia.
Qed.

(** * Further properties of the code *)
(** *** helpers *)
Section StringFacts.

Lemma prefix_contains (n h : string) : String.prefix n h = true -> Py.contains n h = true.
Proof. intro H. rewrite contains_unfold, H. reflexivity. Qed.

Lemma contains_tail (n : string) c t : Py.contains n t = true -> Py.contains n (String c t) = true.
Proof. intro H. rewrite contains_unfold, H. apply orb_true_r. Qed.

Lemma prefix_app_contains (a b h : string) :
  String.prefix (a ++ b) h = true -> Py.contains b h = true.
Proof.
  revert h; induction a as [|x a IH]; intros h H; [exact (prefix_contains _ _ H)|].
  destruct h as [|y h]; [discriminate|]. simpl in H.
  destruct (Ascii.ascii_dec x y); [|discriminate].
  apply contains_tail. exact (IH h H).
Qed.

Lemma contains_app_r (a b h : string) :
  Py.contains (a ++ b) h = true -> Py.contains b h = true.
Proof.
  induction h as [|c h IH]; intro H.
  - rewrite contains_unfold in H. apply orb_true_iff in H as [H|H]; [|discriminate].
    exact (prefix_app_contains a b _ H).
  - rewrite contains_unfold in H. apply orb_true_iff in H as [H|H].
    + exact (prefix_app_contains a b _ H).
    + apply contains_tail. exact (IH H).
Qed.

Lemma contains_empty (h : string) : Py.contains "" h = true.
Proof. destruct h; reflexivity. Qed.

Lemma lstrip_all_space s : UrlParse.all_chars Py.is_space s = true -> Py.lstrip s = "".
Proof.
  induction s as [|c s IH]; simpl; [reflexivity|].
  intro H. apply andb_true_iff in H as [H1 H2]. rewrite H1. exact (IH H2).
Qed.

Lemma lower_char_space c : Py.is_space (Py.lower_char c) = Py.is_space c.
Proof. destruct c as [[] [] [] [] [] [] [] []]; reflexivity. Qed.

Lemma lower_all_space s :
  UrlParse.all_chars Py.is_space s = true -> UrlParse.all_chars Py.is_space (Py.lower s) = true.
Proof.
  induction s as [|c s IH]; simpl; [reflexivity|].
  rewrite lower_char_space. intro H. apply andb_true_iff in H as [H1 H2].
  rewrite H1, (IH H2). reflexivity.
Qed.

End StringFacts.

(** *** FuzzyMatcher *)

(** X1: [names_match] is symmetric: swapping the two names never changes
    the answer, for the equality test and for the initial-plus-last-name test. *)
Theorem names_match_symmetric :
  forall name1 name2, FuzzyMatcher.names_match name1 name2 = FuzzyMatcher.names_match name2 name1.
Proof.
  intros a b. unfold FuzzyMatcher.names_match.
  rewrite String.eqb_sym.
  destruct (String.eqb _ _); [reflexivity|].
  destruct (Py.split (FuzzyMatcher.normalize_name a)) as [|f1 [|l1 [|? ?]]];
  destruct (Py.split (FuzzyMatcher.normalize_name b)) as [|f2 [|l2 [|? ?]]];
    try reflexivity.
  rewrite String.eqb_sym.
  destruct (FuzzyMatcher.first_char f1), (FuzzyMatcher.first_char f2); try reflexivity.
  rewrite Ascii.eqb_sym. reflexivity.
Qed.

(** X2: [find_best_match] returns [None] exactly when no candidate matches
    the target under [names_match]; otherwise it returns the first matching
    candidate in list order. *)
Theorem find_best_match_first :
  forall target_name candidate_names,
    (FuzzyMatcher.find_best_match target_name candidate_names = None <->
     forall c, In c candidate_names -> FuzzyMatcher.names_match target_name c = false) /\
    (forall c, FuzzyMatcher.find_best_match target_name candidate_names = Some c ->
     exists before after, candidate_names = (before ++ c :: after)%list /\
       FuzzyMatcher.names_match target_name c = true /\
       forall x, In x before -> FuzzyMatcher.names_match target_name x = false).
Proof.
  intros t cs. induction cs as [|c0 cs [IHn IHs]]; simpl.
  - split; [split; [intros _ c []|reflexivity]|discriminate].
  - destruct (FuzzyMatcher.names_match t c0) eqn:E.
    + split.
      * split; [discriminate|]. intro H. rewrite (H c0 (or_introl eq_refl)) in E. discriminate.
      * intros c H. inversion H; subst. exists [], cs. split; [reflexivity|]. split; [exact E|].
        intros x [].
    + split.
      * rewrite IHn. split.
        -- intros H c [<-|Hc]; [exact E|exact (H c Hc)].
        -- intros H c Hc. exact (H c (or_intror Hc)).
      * intros c H. destruct (IHs c H) as [pre [post [-> [Hm Hpre]]]].
        exists (c0 :: pre), post. split; [reflexivity|]. split; [exact Hm|].
        intros x [<-|Hx]; [exact E|exact (Hpre x Hx)].
Qed.

Lemma find_best_match_first_witness :
  FuzzyMatcher.find_best_match "Mike Smith" ["Mike Jones"; "M. Smith"; "Mike Smith"] = Some "M. Smith" /\
  exists before after, ["Mike Jones"; "M. Smith"; "Mike Smith"] = (before ++ "M. Smith" :: after)%list /\
    FuzzyMatcher.names_match "Mike Smith" "M. Smith" = true /\
    forall x, In x before -> FuzzyMatcher.names_match "Mike Smith" x = false.
Proof.
  assert (E : FuzzyMatcher.find_best_match "Mike Smith" ["Mike Jones"; "M. Smith"; "Mike Smith"]
              = Some "M. Smith") by (vm_compute; reflexivity).
  split; [exact E|].
  exact (proj2 (find_best_match_first "Mike Smith" ["Mike Jones"; "M. Smith"; "Mike Smith"])
               "M. Smith" E).
Defined.

(** *** config.detect_platform *)

(** X3: [config.detect_platform] never answers "ncaa": its ".com" test comes
    first, so every lowercased domain containing ".com" (ncaa.com and
    prestosports.com included) is "sidearm", and "prestosports" is only
    answered for domains without ".com". *)
Theorem config_detect_platform_com :
  forall domain,
    Config.detect_platform domain <> "ncaa" /\
    (Py.contains ".com" (Py.lower domain) = true -> Config.detect_platform domain = "sidearm") /\
    (Config.detect_platform domain = "prestosports" ->
       Py.contains ".com" (Py.lower domain) = false).
Proof.
  intro d. unfold Config.detect_platform. simpl.
  destruct (Py.contains "sidearmdev" (Py.lower d)); simpl;
    [repeat split; discriminate|].
  destruct (Py.contains "sidearmsports" (Py.lower d)); simpl;
    [repeat split; discriminate|].
  destruct (Py.contains ".com" (Py.lower d)) eqn:Ec; simpl;
    [repeat split; discriminate|].
  assert (Hn : Py.contains "ncaa.com" (Py.lower d) = false).
  { destruct (Py.contains "ncaa.com" (Py.lower d)) eqn:E; [|reflexivity].
    rewrite (contains_app_r "ncaa" ".com" _ E) in Ec. discriminate. }
  assert (Hp : Py.contains "prestosports.com" (Py.lower d) = false).
  { destruct (Py.contains "prestosports.com" (Py.lower d)) eqn:E; [|reflexivity].
    rewrite (contains_app_r "prestosports" ".com" _ E) in Ec. discriminate. }
  rewrite Hn, Hp. simpl.
  destruct (Py.contains "prestosports" (Py.lower d)); simpl;
    repeat split; try discriminate; reflexivity.
Qed.

Lemma config_detect_platform_com_witness :
  Config.detect_platform "gopresto.prestosports.com" = "sidearm" /\
  Config.detect_platform "ncaa.com" = "sidearm".
Proof.
  split.
  - apply (proj1 (proj2 (config_detect_platform_com "gopresto.prestosports.com"))).
    vm_compute. reflexivity.
  - apply (proj1 (proj2 (config_detect_platform_com "ncaa.com"))). vm_compute. reflexivity.
Defined.

(** *** platform_detector *)

(** X4: [platform_detector.detect_platform] never answers "ncaa" for a URL
    whose lowercased host contains "ncaa.org": that pattern is listed under
    "genius", which comes earlier in [PLATFORMS]. *)
Theorem detect_platform_ncaa_org_genius :
  forall url html parsed_url,
    UrlParse.urlparse url = Ok parsed_url ->
    Py.contains "ncaa.org" (Py.lower (UrlParse.netloc parsed_url)) = true ->
    PlatformDetector.detect_platform url html <> Ok "ncaa".
Proof.
  intros url html pr Hp Hc. unfold PlatformDetector.detect_platform. rewrite Hp.
  simpl. rewrite Hc.
  rewrite ?orb_true_l, ?orb_true_r.
  destruct (Py.contains "sidearmsports.com" _ || _); [discriminate|].
  destruct (Py.contains "prestosports.com" _ || _); discriminate.
Qed.

Lemma detect_platform_ncaa_org_genius_witness :
  PlatformDetector.detect_platform "https://stats.ncaa.org/players/1" None <> Ok "ncaa".
Proof.
  apply (detect_platform_ncaa_org_genius "https://stats.ncaa.org/players/1" None
           {| UrlParse.scheme := "https"; UrlParse.netloc := "stats.ncaa.org";
              UrlParse.path := "/players/1"; UrlParse.params := ""; UrlParse.query := "";
              UrlParse.fragment := "" |}); vm_compute; reflexivity.
Defined.

(** *** config.get_roster_url *)

Lemma lookup_schools school cfg :
  Config.lookup school Config.SCHOOLS = Some cfg ->
  In (school, cfg) Config.SCHOOLS.
Proof.
  unfold Config.SCHOOLS. simpl.
  repeat match goal with |- context [if String.eqb ?a ?b then _ else _] =>
    destruct (String.eqb_spec a b) as [->|_] end;
  intro H; try discriminate; inversion H; subst; simpl; tauto.
Qed.

(** X5: [get_roster_url] raises the not-configured error for an unknown
    school; for a configured school and sport "baseball" it yields the
    configured roster URL; and any sport other than "softball" (any case)
    gives the same result as "baseball". *)
Theorem get_roster_url_config :
  forall school_name sport,
    (Config.lookup school_name Config.SCHOOLS = None ->
     Config.get_roster_url school_name sport = Err SchoolNotConfigured) /\
    (forall cfg, Config.lookup school_name Config.SCHOOLS = Some cfg ->
     Config.get_roster_url school_name "baseball" = Ok (Config.roster_url cfg)) /\
    Config.get_roster_url school_name sport =
      Config.get_roster_url school_name
        (if String.eqb (Py.lower sport) "softball" then "softball" else "baseball").
Proof.
  intros school sport. unfold Config.get_roster_url. split; [|split].
  - intro H. rewrite H. reflexivity.
  - intros cfg H. rewrite H. apply lookup_schools in H.
    simpl in H. destruct H as [H|[H|[H|[H|[]]]]]; inversion H; subst; reflexivity.
  - destruct (Config.lookup school Config.SCHOOLS) as [cfg|]; [|reflexivity].
    simpl. destruct (String.eqb_spec (Py.lower sport) "softball") as [E|E].
    + rewrite E. reflexivity.
    + destruct (String.eqb_spec (Py.lower sport) "baseball") as [E'|E'];
        [rewrite E'; reflexivity|].
      reflexivity.
Qed.

Lemma get_roster_url_config_witness :
  Config.get_roster_url "Vanderbilt" "baseball" =
    Ok "https://vucommodores.com/sports/baseball/roster" /\
  Config.get_roster_url "Belmont" "Softball" = Config.get_roster_url "Belmont" "softball" /\
  Config.get_roster_url "Auburn" "baseball" = Err SchoolNotConfigured.
Proof.
  split; [|split].
  - apply (proj1 (proj2 (get_roster_url_config "Vanderbilt" "baseball"))
             {| Config.domain := "vucommodores.com";
                Config.roster_url := "https://vucommodores.com/sports/baseball/roster";
                Config.type := Some "sidearm" |}).
    vm_compute. reflexivity.
  - exact (proj2 (proj2 (get_roster_url_config "Belmont" "Softball"))).
  - apply (proj1 (get_roster_url_config "Auburn" "baseball")). vm_compute. reflexivity.
Defined.

(** *** schools_database *)

Lemma lower_char_idem c : Py.lower_char (Py.lower_char c) = Py.lower_char c.
Proof. destruct c as [[] [] [] [] [] [] [] []]; reflexivity. Qed.

Lemma lower_idem s : Py.lower (Py.lower s) = Py.lower s.
Proof. induction s as [|c s IH]; simpl; [reflexivity|]. rewrite lower_char_idem, IH. reflexivity. Qed.

(** X6: [schools_database.get_school_config] compares the school name
    case-insensitively; a returned config has the requested sport and
    belongs to an entry whose name equals the query up to case; and no
    school of [config.SCHOOLS] is found in [SCHOOLS_DB] for any sport. *)
Theorem get_school_config_lookup :
  forall school_name sport,
    SchoolsDatabase.get_school_config (Py.lower school_name) sport =
      SchoolsDatabase.get_school_config school_name sport /\
    (forall config, SchoolsDatabase.get_school_config school_name sport = Some config ->
       SchoolsDatabase.sport config = sport /\
       exists name, In (name, config) SchoolsDatabase.SCHOOLS_DB /\
                    Py.lower name = Py.lower school_name) /\
    (Config.lookup school_name Config.SCHOOLS <> None ->
       SchoolsDatabase.get_school_config school_name sport = None).
Proof.
  intros school sport. split; [|split].
  - unfold SchoolsDatabase.get_school_config.
    induction SchoolsDatabase.SCHOOLS_DB as [|[name config] rest IH]; simpl; [reflexivity|].
    rewrite lower_idem, IH. reflexivity.
  - intro config. unfold SchoolsDatabase.get_school_config.
    induction SchoolsDatabase.SCHOOLS_DB as [|[name c0] rest IH]; simpl; [discriminate|].
    destruct (String.eqb_spec (Py.lower name) (Py.lower school)) as [E|E]; simpl.
    + destruct (String.eqb_spec (SchoolsDatabase.sport c0) sport) as [E'|E'].
      * intro H. inversion H; subst. split; [reflexivity|]. exists name. auto.
      * intro H. destruct (IH H) as [Hs [n [Hin Hn]]]. split; [exact Hs|]. exists n. auto.
    + intro H. destruct (IH H) as [Hs [n [Hin Hn]]]. split; [exact Hs|]. exists n. auto.
  - intro H. destruct (Config.lookup school Config.SCHOOLS) as [cfg|] eqn:E; [|congruence].
    apply lookup_schools in E. simpl in E.
    destruct E as [E|[E|[E|[E|[]]]]]; inversion E; subst; vm_compute;
      destruct sport; reflexivity.
Qed.

Lemma get_school_config_lookup_witness :
  SchoolsDatabase.get_school_config "Belmont" "baseball" = None /\
  exists name, In (name, {| SchoolsDatabase.ncaa_name := "University of Oklahoma";
                            SchoolsDatabase.platform := "sidearm";
                            SchoolsDatabase.division := "D1";
                            SchoolsDatabase.sport := "softball";
                            SchoolsDatabase.team_website :=
                              "https://soonersports.com/sports/softball/schedule" |})
                   SchoolsDatabase.SCHOOLS_DB /\
               Py.lower name = Py.lower "OKLAHOMA".
Proof.
  split.
  - apply (proj2 (proj2 (get_school_config_lookup "Belmont" "baseball"))).
    vm_compute. discriminate.
  - apply (proj2 (proj1 (proj2 (get_school_config_lookup "OKLAHOMA" "softball")) _
             ltac:(vm_compute; reflexivity))).
Defined.

(** *** find_player_url *)

Lemma normalize_blank name :
  UrlParse.all_chars Py.is_space name = true -> FindPlayerUrl.normalize_name name = "".
Proof.
  intro H. unfold FindPlayerUrl.normalize_name, Py.strip, Py.rstrip.
  rewrite (lstrip_all_space _ (lower_all_space _ H)). reflexivity.
Qed.

Lemma schools_sidearm school cfg :
  Config.lookup school Config.SCHOOLS = Some cfg -> Config.type cfg = Some "sidearm".
Proof.
  intro H. apply lookup_schools in H. simpl in H.
  destruct H as [H|[H|[H|[H|[]]]]]; inversion H; reflexivity.
Qed.

Lemma roster_platform_sidearm school cfg :
  Config.lookup school Config.SCHOOLS = Some cfg -> roster_platform cfg = "sidearm".
Proof. intro H. unfold roster_platform. rewrite (schools_sidearm _ _ H). reflexivity. Qed.

Lemma qualifies_blank js c : card_qualifies "" js c = has_name_number_link js c.
Proof.
  unfold card_qualifies, has_name_number_link, FindPlayerUrl.name_match.
  destruct (FindPlayerUrl.name_text c); [|reflexivity].
  destruct (FindPlayerUrl.link_href c); [|reflexivity].
  rewrite contains_empty. reflexivity.
Qed.

Lemma none_qualifies_blank js cards :
  none_qualifies "" js cards = forallb (fun d => negb (has_name_number_link js d)) cards.
Proof.
  induction cards as [|c cards IH]; [reflexivity|].
  unfold none_qualifies in *. cbn [forallb]. rewrite qualifies_blank, IH. reflexivity.
Qed.

Lemma absolute_url_schools school cfg href :
  Config.lookup school Config.SCHOOLS = Some cfg ->
  FindPlayerUrl.absolute_url cfg href =
    (if Py.startswith href "/" then "https://" ++ Config.domain cfg ++ href
     else if Py.startswith href "http" then href
     else "https://" ++ Config.domain cfg ++ "/sports/baseball/" ++ href).
Proof.
  intro Hl. unfold FindPlayerUrl.absolute_url.
  destruct (Py.startswith href "/"); [reflexivity|].
  destruct (Py.startswith href "http"); [reflexivity|]. simpl negb. cbv iota.
  apply lookup_schools in Hl. simpl in Hl.
  destruct Hl as [E|[E|[E|[E|[]]]]]; inversion E; subst; reflexivity.
Qed.

(** X7: a query name made only of whitespace normalizes to "", which is
    contained in every card name: [find_player_url] then returns the first
    card of the roster that has a name element, the stripped jersey number
    and a non-empty [href], whatever the cards' names are. *)
Theorem find_player_url_blank_name :
  forall fetch player_name jersey_number school cfg page before c after href,
    UrlParse.all_chars Py.is_space player_name = true ->
    Config.lookup school Config.SCHOOLS = Some cfg ->
    fetch (Config.roster_url cfg) = Some page ->
    page "sidearm" = (before ++ c :: after)%list ->
    forallb (fun d => negb (has_name_number_link (Py.strip jersey_number) d)) before = true ->
    has_name_number_link (Py.strip jersey_number) c = true ->
    FindPlayerUrl.link_href c = Some href ->
    FindPlayerUrl.find_player_url fetch player_name jersey_number school =
      Ok (FindPlayerUrl.absolute_url cfg href, "sidearm").
Proof.
  intros fetch name j school cfg page before c after href Hb Hl Hf Hp Hbefore Hc Hh.
  unfold FindPlayerUrl.find_player_url. rewrite <- (roster_platform_sidearm _ _ Hl).
  apply (find_player_url_in_first _ _ _ _ _ cfg page before c after href); auto.
  - rewrite (roster_platform_sidearm _ _ Hl). exact Hp.
  - rewrite normalize_blank by exact Hb. rewrite none_qualifies_blank. exact Hbefore.
  - rewrite normalize_blank by exact Hb. rewrite qualifies_blank. exact Hc.
Qed.

Lemma find_player_url_blank_name_witness :
  FindPlayerUrl.find_player_url two_davis_fetch "  " "8" "Belmont" =
    Ok (FindPlayerUrl.absolute_url belmont_cfg "charlie-davis/2", "sidearm").
Proof.
  apply (find_player_url_blank_name two_davis_fetch "  " "8" "Belmont" belmont_cfg
           (fun _ => [davis9_card; davis_card]) [davis9_card] davis_card []
           "charlie-davis/2"); reflexivity.
Defined.

(** X8: every URL [find_player_url] returns comes with the platform
    "sidearm", starts with "http" and is the non-empty [href] of a card of
    the fetched roster page that matches the query, made absolute: the
    configured domain is put before a root-relative link, absolute links are
    kept, and other links are put under /sports/baseball/. *)
Theorem find_player_url_absolute :
  forall fetch player_name jersey_number school url p,
    FindPlayerUrl.find_player_url fetch player_name jersey_number school = Ok (url, p) ->
    p = "sidearm" /\ Py.startswith url "http" = true /\
    exists cfg page c href,
      Config.lookup school Config.SCHOOLS = Some cfg /\
      fetch (Config.roster_url cfg) = Some page /\
      In c (page "sidearm") /\
      card_qualifies (FindPlayerUrl.normalize_name player_name) (Py.strip jersey_number) c
        = true /\
      FindPlayerUrl.link_href c = Some href /\ href <> "" /\
      url = (if Py.startswith href "/" then "https://" ++ Config.domain cfg ++ href
             else if Py.startswith href "http" then href
             else "https://" ++ Config.domain cfg ++ "/sports/baseball/" ++ href).
Proof.
  intros fetch name j school url p H.
  destruct (find_player_url_in_ok _ _ _ _ _ _ _ H)
    as [cfg [page [b [c [a [href (Hl & Hf & Hp & Hpg & _ & Hc & Hh & ->)]]]]]].
  rewrite (roster_platform_sidearm _ _ Hl) in Hp. subst p.
  change (FindPlayerUrl.selectors_key "sidearm") with "sidearm" in Hpg.
  assert (Hne : href <> "").
  { unfold card_qualifies in Hc. rewrite Hh in Hc.
    destruct (FindPlayerUrl.name_text c); [|discriminate].
    intro E. subst href. rewrite andb_false_r in Hc. discriminate. }
  rewrite (absolute_url_schools _ _ _ Hl).
  split; [reflexivity|]. split.
  - destruct (Py.startswith href "/"); [reflexivity|].
    destruct (Py.startswith href "http") eqn:E; [exact E|reflexivity].
  - exists cfg, page, c, href. repeat split; auto.
    rewrite Hpg. apply in_or_app. right. left. reflexivity.
Qed.

Lemma find_player_url_absolute_witness :
  Py.startswith "https://belmontbruins.com/sports/baseball/charlie-davis/2" "http" = true.
Proof.
  apply (proj1 (proj2 (find_player_url_absolute davis_fetch "Charlie Davis" "8" "Belmont"
      "https://belmontbruins.com/sports/baseball/charlie-davis/2" "sidearm"
      ltac:(vm_compute; reflexivity)))).
Defined.

(** *** data_cleaner.sanitize_player_name *)

Lemma collapse_ws_spaces s b :
  UrlParse.all_chars (fun c => negb (Py.is_space c) || Ascii.eqb c " ")
                     (FindPlayerUrl.collapse_ws s b) = true.
Proof.
  revert b; induction s as [|c s IH]; intro b; simpl.
  - destruct b; reflexivity.
  - destruct (Py.is_space c) eqn:Hc; [apply IH|].
    destruct b; simpl; rewrite Hc; simpl; apply IH.
Qed.

Lemma keep_lower_space_dash_chars s :
  UrlParse.all_chars (fun c => negb (Py.is_space c) || Ascii.eqb c " ") s = true ->
  UrlParse.all_chars (fun c => Py.is_lower c || Ascii.eqb c " " || Ascii.eqb c "-")
                     (DataCleaner.keep_lower_space_dash s) = true.
Proof.
  induction s as [|c s IH]; simpl; [reflexivity|].
  intro H. apply andb_true_iff in H as [Hc Hs].
  destruct (Py.is_lower c) eqn:Hl; simpl.
  - rewrite Hl, (IH Hs). reflexivity.
  - destruct (Py.is_space c) eqn:Hsp; simpl.
    + simpl in Hc. rewrite Hl, Hc, (IH Hs). reflexivity.
    + destruct (Ascii.eqb c "-") eqn:Hd; simpl; [|apply IH; exact Hs].
      rewrite Hd, orb_true_r, (IH Hs). reflexivity.
Qed.

(** X10: [sanitize_player_name] returns text made only of lowercase ASCII
    letters, spaces and "-"; it is not idempotent, because removing a
    character between two spaces leaves a double space ("A . B"). *)
Theorem sanitize_player_name_chars :
  (forall name,
     UrlParse.all_chars (fun c => Py.is_lower c || Ascii.eqb c " " || Ascii.eqb c "-")
                        (DataCleaner.sanitize_player_name name) = true) /\
  DataCleaner.sanitize_player_name (Some (DataCleaner.sanitize_player_name (Some "A . B")))
    <> DataCleaner.sanitize_player_name (Some "A . B").
Proof.
  split; [|vm_compute; discriminate].
  intros [[|c n]|]; try reflexivity.
  unfold DataCleaner.sanitize_player_name.
  apply keep_lower_space_dash_chars, all_chars_strip, collapse_ws_spaces.
Qed.

(** *** parse_game_log *)

Lemma lower_app a b : Py.lower (a ++ b) = Py.lower a ++ Py.lower b.
Proof. induction a as [|c a IH]; simpl; [reflexivity|]. rewrite IH. reflexivity. Qed.

Lemma prefix_self_app a b : String.prefix a (a ++ b) = true.
Proof.
  induction a as [|c a IH]; simpl; [destruct b; reflexivity|].
  destruct (Ascii.ascii_dec c c); [exact IH|congruence].
Qed.

Lemma append_empty_r (s : string) : s ++ "" = s.
Proof. induction s as [|c s IH]; simpl; [reflexivity|]. rewrite IH. reflexivity. Qed.

Lemma contains_app_mid x a b : Py.contains x b = true -> Py.contains x (a ++ b) = true.
Proof. induction a as [|c a IH]; simpl; [auto|]. intro H. apply contains_tail, IH, H. Qed.

Lemma contains_join h hs :
  In h hs -> Py.contains (Py.lower h) (Py.lower (ParseGameLog.join_space hs)) = true.
Proof.
  induction hs as [|x [|y rest] IH]; [intros []| |].
  - intros [E|[]]. subst x. simpl. apply prefix_contains.
    rewrite <- (append_empty_r (Py.lower h)) at 2. apply prefix_self_app.
  - intros [E|Hin].
    + subst x. change (ParseGameLog.join_space (h :: y :: rest))
        with (h ++ " " ++ ParseGameLog.join_space (y :: rest)).
      rewrite lower_app. apply prefix_contains, prefix_self_app.
    + change (ParseGameLog.join_space (x :: y :: rest))
        with (x ++ " " ++ ParseGameLog.join_space (y :: rest)).
      rewrite !lower_app. apply contains_app_mid, contains_app_mid, IH, Hin.
Qed.

Lemma truthy_nonempty (g : ParseGameLog.game) :
  ParseGameLog.truthy (Html.dict_get "Date" g) = true -> g <> [].
Proof. intros H ->. discriminate. Qed.

Lemma generic_keyword hs :
  (existsb (String.eqb "Date") hs || existsb (String.eqb "Opponent") hs) = true ->
  existsb (fun keyword => Py.contains keyword (Py.lower (ParseGameLog.join_space hs)))
          ["date"; "opponent"; "game"] = true.
Proof.
  intro H. apply orb_true_iff in H as [H|H]; apply existsb_exists in H as [h [Hin He]];
    apply String.eqb_eq in He; subst h; apply existsb_exists.
  - exists "date". split; [left; reflexivity|]. exact (contains_join "Date" hs Hin).
  - exists "opponent". split; [right; left; reflexivity|]. exact (contains_join "Opponent" hs Hin).
Qed.

Lemma generic_row headers row g :
  Nat.ltb (List.length (filter Html.is_td row)) 3 = false ->
  g = ParseGameLog.build_game headers row -> g <> [] ->
  In g (if Nat.leb 3 (List.length (filter Html.is_td row)) then
          let game_data := ParseGameLog.build_game headers row in
          match game_data with [] => [] | _ => [game_data] end
        else []).
Proof.
  intros Hl -> Hne. apply Nat.ltb_ge in Hl. apply Nat.leb_le in Hl. rewrite Hl.
  destruct (ParseGameLog.build_game headers row); [congruence|]. left. reflexivity.
Qed.

Lemma generic_tables_superset :
  forall tables g,
    (In g (ParseGameLog.sidearm_tables tables) -> In g (ParseGameLog.generic_tables tables)) /\
    (In g (ParseGameLog.presto_tables tables) -> In g (ParseGameLog.generic_tables tables)).
Proof.
  intros tables g. unfold ParseGameLog.sidearm_tables, ParseGameLog.presto_tables,
                          ParseGameLog.generic_tables.
  split; intro H; apply in_flat_map in H as [t [Ht H]]; apply in_flat_map;
    exists t; [split; [exact Ht|]|split; [apply filter_In in Ht; apply Ht|]].
  - destruct (existsb (String.eqb "Date") _ && existsb (String.eqb "Opponent") _) eqn:Hc;
      [|destruct H].
    apply andb_true_iff in Hc as [Hd _].
    rewrite (generic_keyword (Html.th_texts t)) by (rewrite Hd; reflexivity).
    unfold ParseGameLog.sidearm_rows in H. apply in_flat_map in H as [row [Hr H]].
    apply in_flat_map. exists row. split; [exact Hr|].
    destruct (Nat.ltb _ 3) eqn:Hl; [destruct H|].
    destruct (ParseGameLog.truthy _ && _) eqn:Hd'; [|destruct H].
    destruct H as [<-|[]]. apply andb_true_iff in Hd' as [Hd' _].
    exact (generic_row _ _ _ Hl eq_refl (truthy_nonempty _ Hd')).
  - destruct (existsb (String.eqb "Date") _ || existsb (String.eqb "Opponent") _) eqn:Hc;
      [|destruct H].
    rewrite (generic_keyword (Html.th_texts t) Hc).
    apply in_flat_map in H as [row [Hr H]].
    apply in_flat_map. exists row. split; [exact Hr|].
    destruct (Nat.ltb _ 3) eqn:Hl; [destruct H|].
    destruct (ParseGameLog.truthy _) eqn:Hd'; [|destruct H].
    destruct H as [<-|[]].
    exact (generic_row _ _ _ Hl eq_refl (truthy_nonempty _ Hd')).
Qed.

(** X13: every game that the Sidearm or the PrestoSports table parser emits
    for a list of tables is also emitted by the generic parser for the same
    tables. *)
Theorem generic_parser_superset :
  forall tables g,
    (In g (ParseGameLog.sidearm_tables tables) -> In g (ParseGameLog.generic_tables tables)) /\
    (In g (ParseGameLog.presto_tables tables) -> In g (ParseGameLog.generic_tables tables)).
Proof. exact generic_tables_superset. Qed.

Lemma generic_parser_superset_witness :
  In georgia_state_row (ParseGameLog.generic_tables [spec_game_table]).
Proof.
  apply (proj1 (generic_parser_superset [spec_game_table] georgia_state_row)).
  vm_compute. left. reflexivity.
Defined.




(** *** async_scraper *)

Section NoDeadlock.
Import AsyncScraper.
Local Open Scope list_scope.

Lemma init_tasks {A} n (players : list A) :
  tasks (init n players) = repeat Waiting (List.length players).
Proof. unfold init; simpl. induction players; simpl; [reflexivity|]. f_equal; assumption. Qed.


Lemma reach_trans a b c : reachable a b -> reachable b c -> reachable a c.
Proof.
  intros Hab Hbc. induction Hbc as [|s s' _ IH Hs]; [exact Hab|]. exact (reach_step a s s' IH Hs).
Qed.

Lemma pending_set ts i x y :
  nth_error ts i = Some x ->
  list_sum (map weight (set_task ts i y)) + weight x = list_sum (map weight ts) + weight y.
Proof.
  intro H. destruct (set_task_split ts i x y H) as [l1 [l2 [-> [-> _]]]].
  rewrite !map_app, !list_sum_app. simpl. lia.
Qed.

Lemma length_set ts i x y :
  nth_error ts i = Some x -> List.length (set_task ts i y) = List.length ts.
Proof.
  intro H. destruct (set_task_split ts i x y H) as [l1 [l2 [-> [-> _]]]].
  rewrite !length_app. reflexivity.
Qed.

Lemma all_finished ts :
  ~ In Waiting ts -> ~ In InBody ts -> ts = repeat Finished (List.length ts).
Proof.
  induction ts as [|t ts IH]; intros Hw Hb; [reflexivity|]. simpl.
  destruct t; [exfalso; apply Hw; left; reflexivity|exfalso; apply Hb; left; reflexivity|].
  f_equal. apply IH; intro H; [apply Hw|apply Hb]; right; exact H.
Qed.

Lemma drive n : 1 <= n -> forall m s, pending s < m -> sem_value s + in_flight s = n ->
  exists s', reachable s s' /\ sem_value s' = n /\
             tasks s' = repeat Finished (List.length (tasks s)).
Proof.
  intros Hn m. induction m as [|m IH]; intros s Hm Hinv; [lia|].
  destruct (in_dec task_state_eq_dec InBody (tasks s)) as [Hb|Hb].
  - destruct (In_nth_error _ _ Hb) as [i Hi].
    set (s1 := {| sem_value := S (sem_value s); tasks := set_task (tasks s) i Finished |}).
    assert (St : step s s1) by exact (step_release s i Hi).
    pose proof (pending_set _ _ _ Finished Hi) as P. pose proof (in_flight_set _ _ _ Finished Hi) as F.
    destruct (IH s1) as [s' [R [Hv Ht]]].
    + unfold pending in *. simpl in *. lia.
    + unfold in_flight in *. simpl in *. lia.
    + exists s'. split; [exact (reach_trans _ _ _ (reach_step _ _ _ (reach_init s) St) R)|].
      split; [exact Hv|]. rewrite Ht. simpl. rewrite (length_set _ _ _ Finished Hi). reflexivity.
  - destruct (in_dec task_state_eq_dec Waiting (tasks s)) as [Hw|Hw].
    + destruct (In_nth_error _ _ Hw) as [i Hi].
      assert (F0 : in_flight s = 0).
      { unfold in_flight. destruct (filter is_in_body (tasks s)) as [|t l] eqn:E; [reflexivity|].
        exfalso. assert (Ht : In t (filter is_in_body (tasks s))) by (rewrite E; left; reflexivity).
        apply filter_In in Ht as [Ht Hbt]. destruct t; try discriminate. contradiction. }
      assert (Hpos : 0 < sem_value s) by lia.
      set (s1 := {| sem_value := pred (sem_value s); tasks := set_task (tasks s) i InBody |}).
      assert (St : step s s1) by exact (step_acquire s i Hi Hpos).
      pose proof (pending_set _ _ _ InBody Hi) as P. pose proof (in_flight_set _ _ _ InBody Hi) as F.
      destruct (IH s1) as [s' [R [Hv Ht]]].
      * unfold pending in *. simpl in *. lia.
      * unfold in_flight in *. simpl in *. lia.
      * exists s'. split; [exact (reach_trans _ _ _ (reach_step _ _ _ (reach_init s) St) R)|].
        split; [exact Hv|]. rewrite Ht. simpl. rewrite (length_set _ _ _ InBody Hi). reflexivity.
    + exists s. split; [constructor|]. split.
      * assert (F0 : in_flight s = 0).
        { unfold in_flight. destruct (filter is_in_body (tasks s)) as [|t l] eqn:E; [reflexivity|].
          exfalso. assert (Ht : In t (filter is_in_body (tasks s))) by (rewrite E; left; reflexivity).
          apply filter_In in Ht as [Ht Hbt]. destruct t; try discriminate. contradiction. }
        lia.
      * exact (all_finished _ Hw Hb).
Qed.

Lemma reachable_length {A} (players : list A) n s :
  reachable (scrape_batch players n) s -> List.length (tasks s) = List.length players.
Proof.
  induction 1 as [|s s' _ IH Hs].
  - simpl. apply length_map.
  - inversion Hs as [s0 i Hi _ | s0 i Hi]; subst; simpl; rewrite (length_set _ _ _ _ Hi); exact IH.
Qed.

End NoDeadlock.

(** X16: with a semaphore limit of at least 1, [scrape_batch] never
    deadlocks: from every state the tasks can reach, some continuation
    finishes every task and gives the semaphore back its full value. *)
Theorem scrape_batch_no_deadlock :
  forall A (players : list A) max_concurrent s,
    1 <= max_concurrent ->
    AsyncScraper.reachable (AsyncScraper.scrape_batch players max_concurrent) s ->
    exists s', AsyncScraper.reachable s s' /\
      AsyncScraper.sem_value s' = max_concurrent /\
      AsyncScraper.tasks s' = map (fun _ => AsyncScraper.Finished) players.
Proof.
  intros A players n s Hn Hr.
  destruct (drive n Hn (S (pending s)) s (Nat.lt_succ_diag_r _) (semaphore_invariant players n s Hr))
    as [s' [R [Hv Ht]]].
  exists s'. split; [exact R|]. split; [exact Hv|].
  rewrite Ht, (reachable_length players n s Hr).
  clear. induction players; simpl; [reflexivity|]. f_equal; assumption.
Qed.

Lemma scrape_batch_no_deadlock_witness :
  exists s', AsyncScraper.reachable (AsyncScraper.scrape_batch [1; 2; 3] 2) s' /\
    AsyncScraper.sem_value s' = 2 /\
    AsyncScraper.tasks s' = map (fun _ => AsyncScraper.Finished) [1; 2; 3].
Proof.
  apply (scrape_batch_no_deadlock nat [1; 2; 3] 2 (AsyncScraper.scrape_batch [1; 2; 3] 2)).
  - lia.
  - constructor.
Defined.

(** X17: with a semaphore limit of 0, no task of [scrape_batch] ever enters
    the semaphore block: the initial state is the only reachable one. *)
Theorem scrape_batch_zero_blocks :
  forall A (players : list A) s,
    AsyncScraper.reachable (AsyncScraper.scrape_batch players 0) s ->
    s = AsyncScraper.scrape_batch players 0.
Proof.
  intros A players s H. induction H as [|s s' _ IH Hst]; [reflexivity|].
  subst s. exfalso. inversion Hst as [s0 i Hi Hv | s0 i Hi]; subst.
  - simpl in Hv. lia.
  - unfold AsyncScraper.scrape_batch in Hi. rewrite init_tasks in Hi.
    apply nth_error_In, repeat_spec in Hi. discriminate.
Qed.

Lemma scrape_batch_zero_blocks_witness :
  AsyncScraper.scrape_batch [1; 2] 0 = AsyncScraper.scrape_batch [1; 2] 0.
Proof. apply (scrape_batch_zero_blocks nat [1; 2]). constructor. Defined.

(** *** normalize_date idempotence *)

Section DateIdem.
Import DataCleaner.

Lemma digit_char_digit r : (0 <= r < 10)%Z -> Py.is_digit (digit_char r) = true.
Proof.
  intro H.
  assert (r = 0 \/ r = 1 \/ r = 2 \/ r = 3 \/ r = 4 \/ r = 5 \/ r = 6 \/ r = 7 \/ r = 8 \/ r = 9)%Z
    as E by lia.
  repeat destruct E as [->|E]; try reflexivity; subst; reflexivity.
Qed.

Lemma digit_char_mod x : Py.is_digit (digit_char (x mod 10)) = true.
Proof. apply digit_char_digit. apply Z.mod_pos_bound. lia. Qed.

Lemma isoformat_digits y m d :
  exists a b c t, isoformat y m d = String a (String b (String c t)) /\
    Py.is_digit a = true /\ Py.is_digit b = true /\ Py.is_digit c = true.
Proof.
  unfold isoformat. cbn [pad].
  eexists _, _, _, _. split; [reflexivity|]. rewrite !digit_char_mod. auto.
Qed.

Lemma flat_map_nil {A B} (f : A -> list B) l :
  (forall x, In x l -> f x = []) -> flat_map f l = [].
Proof.
  induction l as [|x l IH]; simpl; [reflexivity|]. intro H.
  rewrite (H x (or_introl eq_refl)), IH; [reflexivity|]. intros y Hy. exact (H y (or_intror Hy)).
Qed.

Lemma digit_at_digit a t :
  Py.is_digit a = true -> digit_at (String a t) = Some (Z.of_nat (nat_of_ascii a - 48), t).
Proof. intro H. unfold digit_at. rewrite H. reflexivity. Qed.

Lemma lit_digit (x : ascii) u rest f (l : ascii) :
  Py.is_digit x = true -> Py.is_digit l = false ->
  match_format (Lit l :: rest) (String x u) f = [].
Proof.
  intros Hx Hl. simpl. destruct (Ascii.eqb_spec l x) as [->|_]; [congruence|reflexivity].
Qed.

Lemma match_m_rest a b c t p :
  Py.is_digit a = true -> Py.is_digit b = true ->
  In p (match_m (String a (String b (String c t)))) ->
  snd p = String c t \/ snd p = String b (String c t).
Proof.
  intros Ha Hb. unfold match_m, two_digits, one_digit.
  rewrite (digit_at_digit a), (digit_at_digit b) by assumption.
  repeat match goal with |- context [if ?x then _ else _] => destruct x end;
    simpl; intuition (subst; simpl; auto).
Qed.

Lemma month_not_digit m a r :
  In m MONTHS -> Py.is_digit a = true -> String.eqb m (String a r) = false.
Proof.
  intros Hm Ha. destruct (String.eqb_spec m (String a r)) as [E|_]; [|reflexivity].
  exfalso. subst m. simpl in Hm.
  repeat destruct Hm as [Hm|Hm]; try contradiction; inversion Hm; subst a; discriminate Ha.
Qed.

Lemma lower_char_digit a : Py.is_digit a = true -> Py.lower_char a = a.
Proof. destruct a as [[] [] [] [] [] [] [] []]; intro H; try discriminate; reflexivity. Qed.

Lemma match_b_none s :
  (forall m, In m MONTHS -> String.eqb m (Py.lower (substring 0 3 s)) = false) ->
  match_b s = [].
Proof.
  unfold match_b. cbv zeta. generalize 1%Z at 2. generalize MONTHS.
  induction l as [|m ms IH]; intros i H; [reflexivity|].
  rewrite (H m (or_introl eq_refl)). apply IH. intros m' Hm'. exact (H m' (or_intror Hm')).
Qed.

Lemma match_b_digit a b c t :
  Py.is_digit a = true -> match_b (String a (String b (String c t))) = [].
Proof.
  intro Ha. apply match_b_none. intros m Hm.
  cbn [substring Py.lower]. rewrite (lower_char_digit a Ha).
  exact (month_not_digit m a _ Hm Ha).
Qed.

Lemma match_format_Db rest s f :
  match_format (Db :: rest) s f =
  flat_map (fun '(v, t) => match_format rest t {| f_year := f_year f; f_month := v; f_day := f_day f |})
           (match_b s).
Proof. reflexivity. Qed.

Lemma match_format_Dm rest s f :
  match_format (Dm :: rest) s f =
  flat_map (fun '(v, t) => match_format rest t {| f_year := f_year f; f_month := v; f_day := f_day f |})
           (match_m s).
Proof. reflexivity. Qed.

Lemma strptime_3digits a b c t :
  Py.is_digit a = true -> Py.is_digit b = true -> Py.is_digit c = true ->
  forall fmt, In fmt formats -> strptime (String a (String b (String c t))) fmt = None.
Proof.
  intros Ha Hb Hc fmt Hf. unfold strptime.
  assert (E : match_format fmt (String a (String b (String c t)))
                {| f_year := None; f_month := 1%Z; f_day := 1%Z |} = []).
  { simpl in Hf. repeat destruct Hf as [<-|Hf]; try contradiction.
    1,2: unfold FMT_b_d_Y, FMT_b_d; rewrite match_format_Db, match_b_digit by exact Ha; reflexivity.
    all: unfold FMT_m_d_y, FMT_m_d_Y; rewrite match_format_Dm; apply flat_map_nil; intros [v r] Hin;
         destruct (match_m_rest a b c t (v, r) Ha Hb Hin) as [E|E]; simpl in E; subst r;
         cbv beta iota; apply lit_digit; assumption || reflexivity. }
  rewrite E. reflexivity.
Qed.

Lemma try_formats_3digits cy a b c t fs :
  Py.is_digit a = true -> Py.is_digit b = true -> Py.is_digit c = true ->
  (forall fmt, In fmt fs -> In fmt formats) ->
  try_formats cy (String a (String b (String c t))) fs = None.
Proof.
  intros Ha Hb Hc. induction fs as [|fmt fs IH]; intro Hin; simpl; [reflexivity|].
  rewrite (strptime_3digits a b c t Ha Hb Hc fmt (Hin fmt (or_introl eq_refl))).
  apply IH. intros f Hf. exact (Hin f (or_intror Hf)).
Qed.

End DateIdem.

(** X11: [normalize_date] is idempotent: an ISO date it returns starts with
    three digits, which none of the four formats accepts, so the date comes
    back unchanged, and text no format accepts is returned unchanged too. *)
Theorem normalize_date_idempotent :
  forall current_year date_str,
    DataCleaner.normalize_date current_year (DataCleaner.normalize_date current_year date_str) =
    DataCleaner.normalize_date current_year date_str.
Proof.
  intros cy [[|c s]|]; try reflexivity.
  destruct (DataCleaner.try_formats cy (String c s) DataCleaner.formats) as [iso|] eqn:E.
  - assert (N : DataCleaner.normalize_date cy (Some (String c s)) = Some iso)
      by (unfold DataCleaner.normalize_date; rewrite E; reflexivity).
    rewrite N.
    destruct (try_formats_iso _ _ _ _ E) as [y [m [d [_ ->]]]].
    destruct (isoformat_digits y m d) as [a [b [c' [t [Eiso [Ha [Hb Hc]]]]]]].
    rewrite Eiso. unfold DataCleaner.normalize_date.
    rewrite (try_formats_3digits cy a b c' t _ Ha Hb Hc (fun f H => H)). reflexivity.
  - assert (N : DataCleaner.normalize_date cy (Some (String c s)) = Some (String c s))
      by (unfold DataCleaner.normalize_date; rewrite E; reflexivity).
    rewrite N. exact N.
Qed.

(** *** names_match ignores case *)

Section CaseInsensitive.
Import FuzzyMatcher.

Lemma lower_char_alpha c : Py.is_alpha (Py.lower_char c) = Py.is_alpha c.
Proof. destruct c as [[] [] [] [] [] [] [] []]; reflexivity. Qed.

Lemma lower_length s : length (Py.lower s) = length s.
Proof. induction s as [|c s IH]; simpl; congruence. Qed.

Lemma lstrip_lower s : Py.lstrip (Py.lower s) = Py.lower (Py.lstrip s).
Proof.
  induction s as [|c s IH]; [reflexivity|]. cbn [Py.lower Py.lstrip].
  rewrite lower_char_space. destruct (Py.is_space c); [exact IH|reflexivity].
Qed.

Lemma suffix_tail_lower s : suffix_tail (Py.lower s) = suffix_tail s.
Proof.
  unfold suffix_tail. rewrite lstrip_lower, !lower_length, lower_idem. reflexivity.
Qed.

Lemma suffix_tail_result s e : suffix_tail s = Some e -> Py.lower e = e.
Proof.
  unfold suffix_tail. intro H.
  destruct (Nat.eqb _ _); [discriminate|]. cbn [fold_right SUFFIXES] in H.
  repeat match type of H with context [if ?b then _ else _] => destruct b end;
    try discriminate; injection H as <-; reflexivity.
Qed.

Lemma remove_suffix_eq u :
  remove_suffix u = match suffix_tail u with
                    | Some e => e
                    | None => match u with
                              | EmptyString => EmptyString
                              | String c t => String c (remove_suffix t)
                              end
                    end.
Proof. destruct u; reflexivity. Qed.

Lemma remove_suffix_lower s : remove_suffix (Py.lower s) = Py.lower (remove_suffix s).
Proof.
  induction s as [|c t IH]; [reflexivity|].
  rewrite (remove_suffix_eq (Py.lower (String c t))), (remove_suffix_eq (String c t)),
    suffix_tail_lower.
  destruct (suffix_tail (String c t)) as [e|] eqn:E.
  - symmetry. exact (suffix_tail_result _ _ E).
  - cbn [Py.lower]. rewrite IH. reflexivity.
Qed.

Lemma rev_str_lower s acc : Py.rev_str (Py.lower s) (Py.lower acc) = Py.lower (Py.rev_str s acc).
Proof.
  revert acc. induction s as [|c s IH]; intro acc; [reflexivity|].
  cbn [Py.lower Py.rev_str]. exact (IH (String c acc)).
Qed.

Lemma eqb_empty_lower s : String.eqb (Py.lower s) "" = String.eqb s "".
Proof. destruct s; reflexivity. Qed.

Lemma split_aux_lower s cur :
  Py.split_aux (Py.lower s) (Py.lower cur) = map Py.lower (Py.split_aux s cur).
Proof.
  revert cur. induction s as [|c s IH]; intro cur; cbn [Py.lower Py.split_aux].
  - rewrite eqb_empty_lower. destruct (String.eqb cur ""); [reflexivity|].
    simpl. rewrite <- (rev_str_lower cur ""). reflexivity.
  - rewrite lower_char_space. destruct (Py.is_space c).
    + rewrite map_app, eqb_empty_lower, <- IH. f_equal.
      destruct (String.eqb cur ""); [reflexivity|].
      simpl. rewrite <- (rev_str_lower cur ""). reflexivity.
    + exact (IH (String c cur)).
Qed.

Lemma split_lower s : Py.split (Py.lower s) = map Py.lower (Py.split s).
Proof. exact (split_aux_lower s ""). Qed.

Lemma last_map_lower (l : list string) : last (map Py.lower l) "" = Py.lower (last l "").
Proof.
  induction l as [|x l IH]; [reflexivity|].
  destruct l as [|y l]; [reflexivity|]. exact IH.
Qed.

Lemma keep_alpha_space_lower s : keep_alpha_space (Py.lower s) = Py.lower (keep_alpha_space s).
Proof.
  induction s as [|c s IH]; [reflexivity|]. cbn [Py.lower keep_alpha_space].
  rewrite lower_char_alpha, lower_char_space.
  destruct (Py.is_alpha c || Py.is_space c); [|exact IH]. cbn [Py.lower]. rewrite IH. reflexivity.
Qed.

Lemma hd_map_lower (l : list string) : hd "" (map Py.lower l) = Py.lower (hd "" l).
Proof. destruct l; reflexivity. Qed.

Lemma lower_join a b : Py.lower a ++ " " ++ Py.lower b = Py.lower (a ++ " " ++ b).
Proof. rewrite !lower_app. reflexivity. Qed.

Lemma normalize_name_eq u : u <> "" ->
  normalize_name u =
  let name1 := remove_suffix u in
  let parts := Py.split name1 in
  let name2 := if Nat.ltb 2 (List.length parts)
               then hd "" parts ++ " " ++ last parts ""
               else name1 in
  Py.strip (Py.lower (keep_alpha_space name2)).
Proof. destruct u; [congruence|reflexivity]. Qed.

Lemma normalize_name_lower s : normalize_name (Py.lower s) = normalize_name s.
Proof.
  destruct s as [|c t]; [reflexivity|].
  rewrite !normalize_name_eq by (cbn [Py.lower]; discriminate).
  cbv zeta. rewrite remove_suffix_lower, split_lower, length_map.
  destruct (Nat.ltb 2 _).
  - rewrite hd_map_lower, last_map_lower, lower_join.
    rewrite keep_alpha_space_lower, lower_idem. reflexivity.
  - rewrite keep_alpha_space_lower, lower_idem. reflexivity.
Qed.

End CaseInsensitive.

(** X12: on ASCII text, [names_match] and [find_best_match] ignore the
    case of the names: lowercasing either name gives the same answer. *)
Theorem names_match_ignores_case :
  forall name1 name2 candidate_names,
    ascii_text name1 = true -> ascii_text name2 = true ->
    forallb ascii_text candidate_names = true ->
    FuzzyMatcher.names_match (Py.lower name1) name2 = FuzzyMatcher.names_match name1 name2 /\
    FuzzyMatcher.names_match name1 (Py.lower name2) = FuzzyMatcher.names_match name1 name2 /\
    FuzzyMatcher.find_best_match (Py.lower name1) candidate_names =
    FuzzyMatcher.find_best_match name1 candidate_names.
Proof.
  intros n1 n2 cs _ _ _. unfold FuzzyMatcher.names_match.
  rewrite !normalize_name_lower. split; [reflexivity|split; [reflexivity|]].
  induction cs as [|c cs IH]; [reflexivity|]. simpl.
  unfold FuzzyMatcher.names_match. rewrite normalize_name_lower.
  destruct (_ : bool); [reflexivity|exact IH].
Qed.

Lemma names_match_ignores_case_witness :
  FuzzyMatcher.names_match (Py.lower "Ken Smith") "KEN SMITH" =
  FuzzyMatcher.names_match "Ken Smith" "KEN SMITH".
Proof.
  apply (proj1 (names_match_ignores_case "Ken Smith" "KEN SMITH" ["ken smith"; "Bob Jones"]
                  eq_refl eq_refl eq_refl)).
Defined.

(** *** find_player_url.normalize_name idempotence *)

Section NormalizeIdem.
Import FindPlayerUrl.

Lemma str_app_assoc (a b c : string) : a ++ (b ++ c) = (a ++ b) ++ c.
Proof. induction a as [|x a IH]; simpl; [reflexivity|]. rewrite IH. reflexivity. Qed.

Lemma rev_str_acc s acc : Py.rev_str s acc = Py.rev_str s "" ++ acc.
Proof.
  revert acc. induction s as [|c s IH]; intro acc; [reflexivity|]. simpl.
  rewrite (IH (String c acc)), (IH (String c "")), <- str_app_assoc. reflexivity.
Qed.

Lemma rev_str_rev s acc : Py.rev_str (Py.rev_str s acc) "" = Py.rev_str acc s.
Proof.
  revert acc. induction s as [|c s IH]; intro acc; [reflexivity|]. simpl. apply IH.
Qed.

Lemma rev_rev s : Py.rev_str (Py.rev_str s "") "" = s.
Proof. rewrite rev_str_rev. reflexivity. Qed.

Lemma rev_str_nonempty s : s <> "" -> Py.rev_str s "" <> "".
Proof.
  intros H E. apply H. rewrite <- (rev_rev s), E. reflexivity.
Qed.

Lemma head_ok_lstrip s : head_ok (Py.lstrip s) = true.
Proof.
  induction s as [|c s IH]; [reflexivity|]. simpl.
  destruct (Py.is_space c) eqn:E; [exact IH|]. simpl. rewrite E. reflexivity.
Qed.

Lemma lstrip_head_ok s : head_ok s = true -> Py.lstrip s = s.
Proof.
  destruct s as [|c s]; [reflexivity|]. simpl. intro H.
  destruct (Py.is_space c); [discriminate|reflexivity].
Qed.

Lemma ends_ok_cons c t : t <> "" -> ends_ok (String c t) = ends_ok t.
Proof.
  intro H. unfold ends_ok. simpl. rewrite rev_str_acc.
  destruct (Py.rev_str t "") eqn:E; [exfalso; exact (rev_str_nonempty t H E)|reflexivity].
Qed.

Lemma ends_ok_lstrip v : ends_ok v = true -> ends_ok (Py.lstrip v) = true.
Proof.
  induction v as [|c t IH]; [reflexivity|]. intro H. simpl.
  destruct (Py.is_space c) eqn:Es; [|exact H].
  destruct t as [|d r]; [reflexivity|].
  apply IH. rewrite <- (ends_ok_cons c) by discriminate. exact H.
Qed.

Lemma strip_head_ends y : head_ok (Py.strip y) = true /\ ends_ok (Py.strip y) = true.
Proof.
  unfold Py.strip, Py.rstrip. split.
  - change (head_ok (Py.rev_str (Py.lstrip (Py.rev_str (Py.lstrip y) "")) ""))
      with (ends_ok (Py.lstrip (Py.rev_str (Py.lstrip y) ""))).
    apply ends_ok_lstrip. unfold ends_ok. rewrite rev_rev. apply head_ok_lstrip.
  - unfold ends_ok. rewrite rev_rev. apply head_ok_lstrip.
Qed.

Lemma collapse_ws_ok t b :
  ends_ok t = true -> (t = "" -> b = false) ->
  ws_ok (collapse_ws t b) = true /\ (b = false -> head_ok t = true -> head_ok (collapse_ws t b) = true).
Proof.
  revert b. induction t as [|c t IH]; intros b He Hb.
  - rewrite (Hb eq_refl). auto.
  - assert (Ht : ends_ok t = true).
    { destruct t as [|d r]; [reflexivity|]. rewrite <- (ends_ok_cons c) by discriminate. exact He. }
    simpl. destruct (Py.is_space c) eqn:Es.
    + destruct t as [|d r].
      * exfalso. unfold ends_ok in He. simpl in He. rewrite Es in He. discriminate.
      * destruct (IH true Ht (fun E => match E with end)) as [W _]. split; [exact W|].
        intros _ Hh. discriminate Hh.
    + destruct (IH false Ht (fun _ => eq_refl)) as [W _].
      destruct b; simpl; rewrite Es; simpl; rewrite ?W; split; auto.
Qed.

Lemma collapse_ws_fixed s :
  ws_ok s = true ->
  collapse_ws s false = s /\ (head_ok s = true -> s <> "" -> collapse_ws s true = String " " s).
Proof.
  induction s as [|c t IH]; intro W.
  - split; [reflexivity|]. intros _ H. congruence.
  - simpl in W |- *. destruct (Py.is_space c) eqn:Es.
    + apply andb_prop in W as [W Wt]. apply andb_prop in W as [Wc Wh].
      apply Ascii.eqb_eq in Wc. subst c.
      destruct (IH Wt) as [_ IH2]. rewrite IH2.
      * split; [reflexivity|]. intro H. discriminate H.
      * apply andb_prop in Wh as [Wh _]. exact Wh.
      * intro E. subst t. discriminate.
    + destruct (IH W) as [IH1 _]. rewrite IH1. auto.
Qed.

Lemma ws_ok_ends s : ws_ok s = true -> ends_ok s = true.
Proof.
  induction s as [|c t IH]; intro W; [reflexivity|]. simpl in W.
  destruct t as [|d r].
  - unfold ends_ok. simpl. destruct (Py.is_space c); [|reflexivity].
    simpl in W. rewrite andb_false_r, andb_false_l in W. discriminate.
  - rewrite ends_ok_cons by discriminate. apply IH.
    destruct (Py.is_space c); [apply andb_prop in W as [_ W]|]; exact W.
Qed.

Lemma lower_collapse_ws u b : Py.lower (collapse_ws u b) = collapse_ws (Py.lower u) b.
Proof.
  revert b. induction u as [|c u IH]; intro b.
  - destruct b; reflexivity.
  - cbn [Py.lower collapse_ws]. rewrite lower_char_space.
    destruct (Py.is_space c); [apply IH|].
    destruct b; cbn [Py.lower]; rewrite IH; reflexivity.
Qed.

Lemma lower_strip x : Py.lower (Py.strip x) = Py.strip (Py.lower x).
Proof.
  unfold Py.strip, Py.rstrip.
  pose proof (rev_str_lower (Py.lstrip (Py.rev_str (Py.lstrip x) "")) "") as A.
  pose proof (rev_str_lower (Py.lstrip x) "") as B.
  change (Py.lower "") with "" in A, B.
  rewrite <- A, <- lstrip_lower, <- B, <- lstrip_lower. reflexivity.
Qed.

End NormalizeIdem.

(** X9: [find_player_url.normalize_name] is idempotent: its result is
    lowercase, stripped, and has single spaces only, so normalizing it again
    changes nothing. *)
Theorem find_player_url_normalize_name_idempotent :
  forall name, FindPlayerUrl.normalize_name (FindPlayerUrl.normalize_name name) =
               FindPlayerUrl.normalize_name name.
Proof.
  intro s. unfold FindPlayerUrl.normalize_name at 2 3.
  set (u := Py.strip (Py.lower s)).
  destruct (strip_head_ends (Py.lower s)) as [Hh He]. fold u in Hh, He.
  destruct (collapse_ws_ok u false He (fun _ => eq_refl)) as [W H0].
  specialize (H0 eq_refl Hh).
  set (N := FindPlayerUrl.collapse_ws u false) in *.
  assert (L : Py.lower N = N).
  { unfold N. rewrite lower_collapse_ws. unfold u. rewrite lower_strip, lower_idem. reflexivity. }
  assert (S : Py.strip N = N).
  { unfold Py.strip, Py.rstrip. rewrite (lstrip_head_ok N H0).
    rewrite (lstrip_head_ok (Py.rev_str N "") (ws_ok_ends N W)). apply rev_rev. }
  unfold FindPlayerUrl.normalize_name. rewrite L, S. apply (collapse_ws_fixed N W).
Qed.

(** *** box score records *)

Section BoxRecords.
Import Html.

Lemma dict_set_keys {A} k (v : A) d x :
  In x (map fst (dict_set k v d)) <-> x = k \/ In x (map fst d).
Proof.
  induction d as [|[k' v'] d IH]; simpl; [firstorder congruence|].
  destruct (String.eqb_spec k k') as [<-|_]; simpl; [firstorder congruence|].
  rewrite IH. firstorder congruence.
Qed.


Lemma zip_into_keeps {A B} (f : B -> A) hs cs d x :
  In x (map fst d) -> In x (map fst (zip_into f hs cs d)).
Proof.
  revert cs d. induction hs as [|h hs IH]; intros [|c cs] d H; simpl; auto.
  apply IH. apply dict_set_keys. auto.
Qed.


End BoxRecords.


